(** * The Grid scene extension of the 3D panel

    A shallow embedding of [Grids.ts] (the [Grids] scene extension, its
    [GridRenderable], and the two geometry generators [createLineList] and
    [createTexts]) together with the properties its specification states.

    Conventions of the embedding:
    - a JavaScript [number] is an exact rational ([Q]); NaN, the infinities
      and binary64 rounding are outside the model, so a statement about
      computed numbers is made where the divisors are not zero;
    - a JavaScript object used as a dictionary ([renderer.config.layers],
      one layer entry, [this.renderables]) is a [gmap] keyed by strings;
    - the extension's mutable fields and the parts of the renderer it reads
      and writes are one explicit [State] record, passed through every
      handler;
    - calls whose effect lives outside the extension (the [dispose] routine
      of an owned sub-object, a pose computed by [xyzrpyToPose]) are recorded
      in a trace, newest last. *)

From Stdlib Require Import QArith Qround Qabs Qminmax Qfield Lqa ZArith Lia.
From Equations Require Import Equations.
From stdpp Require Import base option list strings gmap fin_maps pretty.

Local Open Scope Z_scope.
Local Open Scope string_scope.
Local Open Scope list_scope.

(** ** Numbers *)

(** [a < b] on numbers, as a test. *)
Definition Qltb (a b : Q) : bool := negb (Qle_bool b a).

(** ** Geometry and message types *)

Record Vector3 := mkVector3 { x : Q; y : Q; z : Q }.

Record Quaternion := mkQuaternion { qx : Q; qy : Q; qz : Q; qw : Q }.

Record Pose := mkPose { position : Vector3; orientation : Quaternion }.

Record ColorRGBA := mkColor { r : Q; g : Q; b : Q; a : Q }.

Record Time := mkTime { sec : Z; nsec : Z }.

Definition TIME_ZERO : Time := mkTime 0 0.

Definition vec2 : Type := Q * Q.

Definition vec3 : Type := Q * Q * Q.

(** The two enumerations of [../ros] the extension names. *)
Inductive MarkerType :=
| ARROW | CUBE | SPHERE | CYLINDER | LINE_STRIP | LINE_LIST | CUBE_LIST
| SPHERE_LIST | POINTS | TEXT_VIEW_FACING | MESH_RESOURCE | TRIANGLE_LIST.

Inductive MarkerAction := ADD | DELETE | DELETEALL.

Record Header := mkHeader { frame_id : string; stamp : Time }.

Record Marker := mkMarker {
  header : Header;
  ns : string;
  marker_id : Z;
  marker_type : MarkerType;
  action : MarkerAction;
  pose : Pose;
  scale : Vector3;
  color : ColorRGBA;
  lifetime : Time;
  frame_locked : bool;
  points : list Vector3;
  colors : list ColorRGBA;
  marker_text : string;
  mesh_resource : string;
  mesh_use_embedded_materials : bool
}.

Record TextPrimitive := mkTextPrimitive {
  text_pose : Pose;
  billboard : bool;
  font_size : Q;
  scale_invariant : bool;
  text_color : ColorRGBA;
  text_text : string
}.

(** A [SceneEntity]; the extension only ever fills [texts], every other
    primitive list is the empty array. *)
Record SceneEntity := mkSceneEntity {
  timestamp : Time;
  entity_frame_id : string;
  entity_id : string;
  entity_lifetime : Time;
  entity_frame_locked : bool;
  metadata : list (string * string);
  arrows : list unit;
  cubes : list unit;
  spheres : list unit;
  cylinders : list unit;
  lines : list unit;
  triangles : list unit;
  texts : list TextPrimitive;
  models : list unit
}.

(** ** Settings *)

Record LayerSettingsGrid := mkLayerSettingsGrid {
  visible : bool;
  frameLocked : bool;
  label : string;
  instanceId : string;
  layerId : string;
  frameId : option string;
  gridSize : Q;
  gridDivisions : Q;
  gridLineWidth : Q;
  gridColor : string;
  gridPosition : vec3;
  gridRotation : vec3;
  rangeMarkerVisible : bool;
  rangeMarkerFollowCamera : bool;
  rangeMarkerFollowCameraNudge : vec2;
  rangeMarkerPosition : vec2;
  rangeMarkerFontSize : Q;
  rangeMarkerFontColor : string
}.

Definition LAYER_ID : string := "foxglove.Grid".
Definition DEFAULT_GRID_SIZE : Q := 10.
Definition DEFAULT_GRID_DIVISIONS : Q := 10.
Definition DEFAULT_GRID_LINE_WIDTH : Q := 1.
Definition DEFAULT_GRID_COLOR : string := "#248eff".
Definition DEFAULT_RANGE_MARKER_VISIBLE : bool := false.
Definition DEFAULT_RANGE_MARKER_FOLLOW_CAMERA : bool := false.
Definition DEFAULT_RANGE_MARKER_FOLLOW_CAMERA_NUDGE : vec2 := (0, 0)%Q.
Definition DEFAULT_RANGE_MARKER_POSITION : vec2 :=
  (- DEFAULT_GRID_SIZE, - DEFAULT_GRID_SIZE)%Q.
Definition DEFAULT_RANGE_MARKER_FONT_SIZE : Q := 20.
Definition DEFAULT_RANGE_MARKER_FONT_COLOR : string := "#248eff".
Definition MAX_DIVISIONS : Q := 4096.

Definition DEFAULT_SETTINGS : LayerSettingsGrid := {|
  visible := true;
  frameLocked := true;
  label := "Grid";
  instanceId := "invalid";
  layerId := LAYER_ID;
  frameId := None;
  gridSize := DEFAULT_GRID_SIZE;
  gridDivisions := DEFAULT_GRID_DIVISIONS;
  gridLineWidth := DEFAULT_GRID_LINE_WIDTH;
  gridColor := DEFAULT_GRID_COLOR;
  gridPosition := (0, 0, 0)%Q;
  gridRotation := (0, 0, 0)%Q;
  rangeMarkerVisible := DEFAULT_RANGE_MARKER_VISIBLE;
  rangeMarkerFollowCamera := DEFAULT_RANGE_MARKER_FOLLOW_CAMERA;
  rangeMarkerFollowCameraNudge := DEFAULT_RANGE_MARKER_FOLLOW_CAMERA_NUDGE;
  rangeMarkerPosition := DEFAULT_RANGE_MARKER_POSITION;
  rangeMarkerFontSize := DEFAULT_RANGE_MARKER_FONT_SIZE;
  rangeMarkerFontColor := DEFAULT_RANGE_MARKER_FONT_COLOR
|}.

(** ** Configuration entries *)

(** A value stored under a key of a layer entry, or carried by a settings
    action. *)
Inductive Value :=
| VUndefined
| VBool (flag : bool)
| VNum (n : Q)
| VStr (s : string)
| VVec2 (v : vec2)
| VVec3 (v : vec3).

(** One entry of [renderer.config.layers], a [Partial<LayerSettingsGrid>]
    (or the settings of a layer of another kind): a JavaScript object, keys
    to values. *)
Abbreviation LayerEntry := (gmap string Value).

(** Typed reads of an entry: the value under [key], or [fallback] when the
    key is missing. The source reads a key in two ways, by spreading the
    entry over the defaults and by [config.key ?? fallback]; on an entry
    whose keys hold values of their declared types ([wellTypedEntry] below)
    both are this read. A key holding anything else is outside the model and
    read as the fallback. *)
Definition getBool (entry : LayerEntry) (key : string) (fallback : bool) : bool :=
  match entry !! key with Some (VBool v) => v | _ => fallback end.

Definition getNum (entry : LayerEntry) (key : string) (fallback : Q) : Q :=
  match entry !! key with Some (VNum v) => v | _ => fallback end.

Definition getStr (entry : LayerEntry) (key : string) (fallback : string) : string :=
  match entry !! key with Some (VStr v) => v | _ => fallback end.

Definition getOptStr (entry : LayerEntry) (key : string) : option string :=
  match entry !! key with Some (VStr v) => Some v | _ => None end.

Definition getOptNum (entry : LayerEntry) (key : string) : option Q :=
  match entry !! key with Some (VNum v) => Some v | _ => None end.

Definition getVec2 (entry : LayerEntry) (key : string) (fallback : vec2) : vec2 :=
  match entry !! key with Some (VVec2 v) => v | _ => fallback end.

Definition getVec3 (entry : LayerEntry) (key : string) (fallback : vec3) : vec3 :=
  match entry !! key with Some (VVec3 v) => v | _ => fallback end.

(** [entry?.layerId === LAYER_ID] *)
Definition isGridLayer (entry : LayerEntry) : bool :=
  match entry !! "layerId" with
  | Some (VStr s) => String.eqb s LAYER_ID
  | _ => false
  end.

(** [{ ...DEFAULT_SETTINGS, ...settings }]: every key of [settings] wins
    over the default. *)
Definition mergeSettings (settings : LayerEntry) : LayerSettingsGrid := {|
  visible := getBool settings "visible" (visible DEFAULT_SETTINGS);
  frameLocked := getBool settings "frameLocked" (frameLocked DEFAULT_SETTINGS);
  label := getStr settings "label" (label DEFAULT_SETTINGS);
  instanceId := getStr settings "instanceId" (instanceId DEFAULT_SETTINGS);
  layerId := getStr settings "layerId" (layerId DEFAULT_SETTINGS);
  frameId := getOptStr settings "frameId";
  gridSize := getNum settings "gridSize" (gridSize DEFAULT_SETTINGS);
  gridDivisions := getNum settings "gridDivisions" (gridDivisions DEFAULT_SETTINGS);
  gridLineWidth := getNum settings "gridLineWidth" (gridLineWidth DEFAULT_SETTINGS);
  gridColor := getStr settings "gridColor" (gridColor DEFAULT_SETTINGS);
  gridPosition := getVec3 settings "gridPosition" (gridPosition DEFAULT_SETTINGS);
  gridRotation := getVec3 settings "gridRotation" (gridRotation DEFAULT_SETTINGS);
  rangeMarkerVisible :=
    getBool settings "rangeMarkerVisible" (rangeMarkerVisible DEFAULT_SETTINGS);
  rangeMarkerFollowCamera :=
    getBool settings "rangeMarkerFollowCamera"
      (rangeMarkerFollowCamera DEFAULT_SETTINGS);
  rangeMarkerFollowCameraNudge :=
    getVec2 settings "rangeMarkerFollowCameraNudge"
      (rangeMarkerFollowCameraNudge DEFAULT_SETTINGS);
  rangeMarkerPosition :=
    getVec2 settings "rangeMarkerPosition" (rangeMarkerPosition DEFAULT_SETTINGS);
  rangeMarkerFontSize :=
    getNum settings "rangeMarkerFontSize" (rangeMarkerFontSize DEFAULT_SETTINGS);
  rangeMarkerFontColor :=
    getStr settings "rangeMarkerFontColor" (rangeMarkerFontColor DEFAULT_SETTINGS)
|}.

(** The type [Partial<LayerSettingsGrid>] on an entry: each settings key
    that is present holds a value of its declared type ([frameId] may hold
    [undefined]). Other keys, such as [order], are free. *)
Inductive Kind := KBool | KNum | KStr | KVec2 | KVec3 | KOptStr.

Definition hasKind (kind : Kind) (value : Value) : bool :=
  match kind, value with
  | KBool, VBool _ => true
  | KNum, VNum _ => true
  | KStr, VStr _ => true
  | KVec2, VVec2 _ => true
  | KVec3, VVec3 _ => true
  | KOptStr, VStr _ => true
  | KOptStr, VUndefined => true
  | _, _ => false
  end.

Definition declaredKinds : list (string * Kind) :=
  [ ("visible", KBool); ("frameLocked", KBool); ("label", KStr);
    ("instanceId", KStr); ("layerId", KStr); ("frameId", KOptStr);
    ("gridSize", KNum); ("gridDivisions", KNum); ("gridLineWidth", KNum);
    ("gridColor", KStr); ("gridPosition", KVec3); ("gridRotation", KVec3);
    ("rangeMarkerVisible", KBool); ("rangeMarkerFollowCamera", KBool);
    ("rangeMarkerFollowCameraNudge", KVec2); ("rangeMarkerPosition", KVec2);
    ("rangeMarkerFontSize", KNum); ("rangeMarkerFontColor", KStr) ].

Definition wellTypedEntry (entry : LayerEntry) : bool :=
  forallb (fun declared : string * Kind =>
             match entry !! declared.1 with
             | Some value => hasKind declared.2 value
             | None => true
             end)
          declaredKinds.

(** Every grid layer of a config is well typed. *)
Definition wellTypedLayers (layers : gmap string LayerEntry) : bool :=
  forallb (fun item : string * LayerEntry =>
             implb (isGridLayer item.2) (wellTypedEntry item.2))
          (map_to_list layers).

(** A full settings record as an entry: the object [{ ...config }]. *)
Definition entryOfSettings (config : LayerSettingsGrid) : LayerEntry :=
  <["visible" := VBool (visible config)]>
  (<["frameLocked" := VBool (frameLocked config)]>
  (<["label" := VStr (label config)]>
  (<["instanceId" := VStr (instanceId config)]>
  (<["layerId" := VStr (layerId config)]>
  (<["frameId" := from_option VStr VUndefined (frameId config)]>
  (<["gridSize" := VNum (gridSize config)]>
  (<["gridDivisions" := VNum (gridDivisions config)]>
  (<["gridLineWidth" := VNum (gridLineWidth config)]>
  (<["gridColor" := VStr (gridColor config)]>
  (<["gridPosition" := VVec3 (gridPosition config)]>
  (<["gridRotation" := VVec3 (gridRotation config)]>
  (<["rangeMarkerVisible" := VBool (rangeMarkerVisible config)]>
  (<["rangeMarkerFollowCamera" := VBool (rangeMarkerFollowCamera config)]>
  (<["rangeMarkerFollowCameraNudge" :=
       VVec2 (rangeMarkerFollowCameraNudge config)]>
  (<["rangeMarkerPosition" := VVec2 (rangeMarkerPosition config)]>
  (<["rangeMarkerFontSize" := VNum (rangeMarkerFontSize config)]>
  (<["rangeMarkerFontColor" := VStr (rangeMarkerFontColor config)]>
     ∅))))))))))))))))).

(** ** Renderables *)

(** Modelled from the spec: [RenderableLineList] and [RenderableTexts] are
    classes of other files. Each is an owned sub-object into which the
    extension pushes geometry, replaced in place; the model keeps the
    arguments of the last constructor or [update] call. *)
Record RenderableLineList := mkRenderableLineList {
  lineList_name : string;
  lineList_marker : Marker
}.

Record RenderableTexts := mkRenderableTexts {
  texts_topic : string;
  texts_entity : SceneEntity
}.

(** A [GridRenderable] with its [userData]. *)
Record GridRenderable := mkGridRenderable {
  name : string;
  receiveTime : Z;
  messageTime : Z;
  userData_frameId : string;
  userData_pose : Pose;
  settingsPath : list string;
  userData_settings : LayerSettingsGrid;
  userData_lineList : RenderableLineList;
  userData_texts : RenderableTexts
}.

(** ** The settings tree *)

Inductive FieldInput :=
| InputSelect (options : list (string * option string)) (value : option Value)
| InputNumber (min max : option Q) (step : Q) (precision : Z)
    (value : option Value) (placeholder : string)
| InputRgba (value : option Value) (placeholder : string)
| InputVec3 (labels : list string) (precision : Z) (value : Value)
| InputVec2 (labels : list string) (step : Q) (precision : Z)
    (value : option Value)
| InputBoolean (value : option Value).

Record SettingsTreeField := mkSettingsTreeField {
  field_label : string;
  field_disabled : bool;
  field_input : FieldInput
}.

(** A node of the tree; its [handler] is always [handleSettingsAction] and
    is left out. *)
Record SettingsTreeNode := mkSettingsTreeNode {
  node_label : string;
  node_icon : string;
  node_fields : list (string * SettingsTreeField);
  node_visible : bool;
  node_actions : list (string * string * string);
  node_order : option Value
}.

Record SettingsTreeEntry := mkSettingsTreeEntry {
  entry_path : list string;
  entry_node : SettingsTreeNode
}.

(** The two shapes of a [SettingsTreeAction]. *)
Inductive SettingsTreeAction :=
| Update (path : list string) (value : Value)
| PerformNodeAction (path : list string) (id : string).

(** ** State *)

Record CameraState := mkCameraState {
  distance : Q;
  fovy : Q;
  targetOffset : vec3
}.

Record RangeMarkersConfig := mkRangeMarkersConfig { followCamera : bool }.

Inductive SubObject := LineListPart | TextsPart.

(** Calls that leave the extension. *)
Inductive Effect :=
| Disposed (instanceId : string) (part : SubObject)
| PoseComputed (instanceId : string) (position rotation : vec3).

Record State := mkState {
  layers : gmap string LayerEntry;            (* renderer.config.layers *)
  renderables : gmap string GridRenderable;   (* this.renderables *)
  children : list string;                     (* renderables in the scene *)
  trace : list Effect;
  cameraState : option CameraState;           (* renderer.getCameraState() *)
  drawingBufferSize : Q * Q;                  (* width, height *)
  coordinateFrameList : list (string * option string);
  settingsTree : list SettingsTreeEntry       (* nodes last published *)
}.

(** ** The counted loop [for (let i = 0; i <= bound; i++) body] *)

Definition inspect {A : Type} (v : A) : { w : A | v = w } := exist _ v eq_refl.

(** The loop threads the array it pushes to; [i] is the counter at entry.
    It stops the first time [i <= bound] is false. *)
Equations? for_le {A : Type} (bound : Q) (body : Z -> list A -> list A)
    (i : Z) (acc : list A) : list A
  by wf (Z.to_nat (Qfloor bound + 1 - i)) lt :=
  for_le bound body i acc with inspect (Qle_bool (inject_Z i) bound) := {
    | exist _ true Hguard => for_le bound body (i + 1) (body i acc)
    | exist _ false _ => acc }.
Proof.
  apply Qle_bool_iff in Hguard.
  assert (i <= Qfloor bound).
  { rewrite <- (Qfloor_Z i). apply Qfloor_resp_le. exact Hguard. }
  lia.
Qed.

(** ** Counting disposals, and the settings of a new grid *)

(** How often the trace records the disposal of one sub-object. *)
Definition isDisposal (instanceId : string) (part : SubObject)
    (effect : Effect) : bool :=
  match effect, part with
  | Disposed disposedId LineListPart, LineListPart =>
      String.eqb disposedId instanceId
  | Disposed disposedId TextsPart, TextsPart =>
      String.eqb disposedId instanceId
  | _, _ => false
  end.

Definition disposals (instanceId : string) (part : SubObject)
    (trace : list Effect) : nat :=
  length (List.filter (isDisposal instanceId part) trace).


(** The kind of value a field of the settings tree edits. *)
Definition inputKind (input : FieldInput) : Kind :=
  match input with
  | InputSelect _ _ => KOptStr
  | InputNumber _ _ _ _ _ _ => KNum
  | InputRgba _ _ => KStr
  | InputVec3 _ _ _ => KVec3
  | InputVec2 _ _ _ _ => KVec2
  | InputBoolean _ => KBool
  end.

(** ** The message filters panel

    [buildSettingsTree] of MessageFiltersPanel. A JS object literal is an
    association list in the order its keys are written. *)
Module MessageFiltersPanel.

(** The two properties of a [Topic] the panel reads. *)
Record Topic := mkTopic { name : string; schemaName : string }.

Inductive FilterType := GT | GE | LT | LE | EQ | NE.

Inductive FilterValue := FilterNumber (value : Q) | FilterString (value : string).

Record Filter := mkFilter {
  field : string;
  type : FilterType;
  value : FilterValue;
  func : FilterValue -> bool
}.

Record Config := mkConfig {
  topic : option string;
  publish : option string;
  filters : option (list Filter)
}.

Definition DEFAULT_CONFIG : Config := {|
  topic := None;
  publish := None;
  filters := Some []
|}.

Record SelectOption := mkSelectOption {
  option_label : string;
  option_value : string
}.

(** The fields the tree uses: [input: "select"], whose [value] may be left
    out, and [input: "string"]. *)
Inductive Field :=
| SelectField (label help : string) (options : list SelectOption)
    (value : option (option string))
| StringField (label help : string) (value : option string)
    (placeholder : string).

Record Node := mkNode {
  node_label : string;
  node_order : Z;
  node_fields : list (string * Field)
}.

(** [`${value}`] of a [string | undefined]. *)
Definition template (value : option string) : string :=
  match value with
  | Some text => text
  | None => "undefined"
  end.

Definition buildSettingsTree (config : Config) (topics : list Topic)
  : list (string * Node) :=
  let general := {|
    node_label := "General";
    node_order := 0;
    node_fields :=
      [ ("topic",
         SelectField "Topic" "Choose a topic to filter."
           ((fun item => mkSelectOption (name item) (name item))
              <$> List.filter
                    (fun item =>
                       String.eqb (schemaName item) "sensor_msgs/msg/PointCloud2")
                    topics)
           (Some (topic config)));
        ("publish",
         StringField "Publish As" "Set a name for the new topic."
           (publish config)
           (template (topic config) ++ "/filtered")%string) ] |} in
  let filter := {|
    node_label := "Filters";
    node_order := 1;
    node_fields :=
      [ ("field",
         SelectField "Field" "Choose message field"
           ((fun item => mkSelectOption (schemaName item) (schemaName item))
              <$> topics)
           None) ] |} in
  [ ("general", general); ("filter", filter) ].

(** [tree[node].fields[key]] *)
Definition fieldAt (tree : list (string * Node)) (node key : string)
  : option Field :=
  match List.find (fun item => String.eqb item.1 node) tree with
  | Some (_, found) =>
      snd <$> List.find (fun item => String.eqb item.1 key) (node_fields found)
  | None => None
  end.

Definition optionsOf (field : option Field) : list SelectOption :=
  match field with
  | Some (SelectField _ _ options _) => options
  | _ => []
  end.

Definition placeholderOf (field : option Field) : option string :=
  match field with
  | Some (StringField _ _ _ placeholder) => Some placeholder
  | _ => None
  end.

End MessageFiltersPanel.

(** ** Vocabulary of the statements *)


(** The three writes of [#handleRangeMarkersConfigChanged] on one entry. *)
Definition withRangeMarkersConfig (rangeMarkersConfig : RangeMarkersConfig)
    (entry : LayerEntry) : LayerEntry :=
  <["rangeMarkerFollowCamera" := VBool (followCamera rangeMarkersConfig)]>
    (<["rangeMarkerFollowCameraNudge" := VVec2 (0, 0)%Q]>
       (<["rangeMarkerVisible" := VBool true]> entry)).

(** ** Sample data

    Stand-ins for the imported helpers and a few configurations, for the
    worked examples that close the file. *)

Definition identityPose : Pose :=
  mkPose (mkVector3 0 0 0) (mkQuaternion 0 0 0 1).

(** A pose at [position], not rotated. *)
Definition translationPose (position rotation : vec3) : Pose :=
  mkPose (mkVector3 position.1.1 position.1.2 position.2)
         (mkQuaternion 0 0 0 1).

(** A colour parser that rejects every string: the colour stays as it is. *)
Definition keepColor (color : ColorRGBA) (colorStr : string) : ColorRGBA :=
  color.

(** Component-wise distance below 1/100000. *)
Definition withinEpsilon (u v : vec3) : bool :=
  Qltb (Qabs (u.1.1 - v.1.1)) (1 # 100000)
  && Qltb (Qabs (u.1.2 - v.1.2)) (1 # 100000)
  && Qltb (Qabs (u.2 - v.2)) (1 # 100000).

(** The sine of 45, to four places, at every argument. *)
Definition sineOf45 (angle : Q) : Q := 8509 # 10000.

Definition exponentNotation (v : Q) : string := "1e+21".

Definition untranslated (key : string) : string := key.

Definition sampleSettings (divisions : Q) (markers : bool)
  : LayerSettingsGrid := {|
  visible := true;
  frameLocked := true;
  label := "Grid";
  instanceId := "grid-1";
  layerId := LAYER_ID;
  frameId := None;
  gridSize := 10;
  gridDivisions := divisions;
  gridLineWidth := 1;
  gridColor := DEFAULT_GRID_COLOR;
  gridPosition := (0, 0, 0)%Q;
  gridRotation := (0, 0, 0)%Q;
  rangeMarkerVisible := markers;
  rangeMarkerFollowCamera := true;
  rangeMarkerFollowCameraNudge := (0, 0)%Q;
  rangeMarkerPosition := DEFAULT_RANGE_MARKER_POSITION;
  rangeMarkerFontSize := 20;
  rangeMarkerFontColor := DEFAULT_RANGE_MARKER_FONT_COLOR
|}.

(** A stored grid layer with a division count and nothing else set. *)
Definition gridEntry (divisions : Q) : LayerEntry :=
  {[ "layerId" := VStr LAYER_ID; "gridDivisions" := VNum divisions ]}.

(** A stored grid layer with nothing set. *)
Definition bareGridEntry : LayerEntry := {[ "layerId" := VStr LAYER_ID ]}.

(** A renderer holding [layers], no renderable built yet, no camera. *)
Definition freshRenderer (layers : gmap string LayerEntry) : State := {|
  layers := layers;
  renderables := ∅;
  children := [];
  trace := [];
  cameraState := None;
  drawingBufferSize := (800, 600)%Q;
  coordinateFrameList := [];
  settingsTree := []
|}.

(** The same with a square drawing buffer and a camera at distance 10 with
    a field of view of 90. *)
Definition viewedRenderer (layers : gmap string LayerEntry) : State := {|
  layers := layers;
  renderables := ∅;
  children := [];
  trace := [];
  cameraState := Some (mkCameraState 10 90 (0, 0, 0)%Q);
  drawingBufferSize := (800, 800)%Q;
  coordinateFrameList := [];
  settingsTree := []
|}.

(** ** The extension *)

Section Grids.

(** Helpers the file imports from modules outside this development
    ([../transforms], [../color], [../math], [../settings], [i18next]) and
    the two built-ins with no rational counterpart. *)
Variable makePose : Pose.
Variable xyzrpyToPose : vec3 -> vec3 -> Pose.
Variable stringToRgba : ColorRGBA -> string -> ColorRGBA.
Variable vec3TupleApproxEquals : vec3 -> vec3 -> bool.
Variable Math_sin : Q -> Q.
Variable Number_toString : Q -> string.
Variable PRECISION_DISTANCE : Z.
Variable PRECISION_DEGREES : Z.
Variable t : string -> string.

(** [Number.prototype.toFixed(0)] on a finite number: the sign is split
    off, a magnitude of at least 10^21 is printed by [ToString], any other
    by the digits of the integer nearest to it (the larger one on a tie). *)
Definition toFixed0 (v : Q) : string :=
  let s := if Qltb v 0 then "-" else "" in
  let v' := if Qltb v 0 then (- v)%Q else v in
  let m := if Qle_bool (inject_Z (10 ^ 21)) v'
           then Number_toString v'
           else pretty (Z.to_N (Qfloor (v' + (1 # 2)))) in
  (s ++ m)%string.

(** *** createLineList *)

(** One turn of the loop of [createLineList]: four pushes. *)
Definition lineListBody (halfSize step : Q) (i : Z) (points : list Vector3)
  : list Vector3 :=
  let x := (- halfSize + inject_Z i * step)%Q in
  points ++ [ mkVector3 x (- halfSize) 0;
              mkVector3 x halfSize 0;
              mkVector3 (- halfSize) x 0;
              mkVector3 halfSize x 0 ].

Definition createLineList (settings : LayerSettingsGrid) : Marker :=
  let size := gridSize settings in
  let divisions := gridDivisions settings in
  let colorStr := gridColor settings in
  let lineWidth := gridLineWidth settings in
  let step := (size / divisions)%Q in
  let halfSize := (size / 2)%Q in
  let points := for_le divisions (lineListBody halfSize step) 0 [] in
  let color := stringToRgba (mkColor 1 1 1 1) colorStr in
  {| header := mkHeader "" TIME_ZERO;
     ns := "";
     marker_id := 0;
     marker_type := LINE_LIST;
     action := ADD;
     pose := makePose;
     scale := mkVector3 lineWidth 1 1;
     color := color;
     lifetime := TIME_ZERO;
     frame_locked := true;
     points := points;
     colors := [];
     marker_text := "";
     mesh_resource := "";
     mesh_use_embedded_materials := false |}.

(** *** createTexts *)

(** One turn of the loop of [createTexts]: a label on each axis. *)
Definition textsBody (settings : LayerSettingsGrid) (color : ColorRGBA)
    (halfSize step : Q) (i : Z) (texts : list TextPrimitive)
  : list TextPrimitive :=
  let fontSize := rangeMarkerFontSize settings in
  let position := rangeMarkerPosition settings in
  let gridPosition := gridPosition settings in
  let relDistance := (- halfSize + inject_Z i * step)%Q in
  let point : vec2 := ((relDistance + gridPosition.1.1)%Q,
                       (relDistance + gridPosition.1.2)%Q) in
  texts ++
  [ {| text_pose :=
         mkPose (mkVector3 relDistance (- position.2 - gridPosition.1.2)%Q 0)
                (mkQuaternion 0 0 0 1);
       billboard := true;
       font_size := fontSize;
       scale_invariant := true;
       text_color := color;
       text_text := toFixed0 point.1 |};
    {| text_pose :=
         mkPose (mkVector3 (position.1 - gridPosition.1.1)%Q relDistance 0)
                (mkQuaternion 0 0 0 1);
       billboard := true;
       font_size := fontSize;
       scale_invariant := true;
       text_color := color;
       text_text := toFixed0 point.2 |} ].

Definition createTexts (settings : LayerSettingsGrid) : SceneEntity :=
  let visible := rangeMarkerVisible settings in
  let colorStr := rangeMarkerFontColor settings in
  let gridSize := gridSize settings in
  let gridDivisions := gridDivisions settings in
  let texts :=
    if visible then
      let color := stringToRgba (mkColor 1 1 1 1) colorStr in
      let step := (gridSize / gridDivisions)%Q in
      let halfSize := (gridSize / 2)%Q in
      for_le gridDivisions (textsBody settings color halfSize step) 0 []
    else [] in
  {| timestamp := TIME_ZERO;
     entity_frame_id := "";
     entity_id := "RANGE_MARKERS";
     entity_lifetime := TIME_ZERO;
     entity_frame_locked := true;
     metadata := [];
     arrows := [];
     cubes := [];
     spheres := [];
     cylinders := [];
     lines := [];
     triangles := [];
     texts := texts;
     models := [] |}.

(** *** #nudgeRangeMarkersIntoView *)

Definition viewportBounds (cameraState : CameraState) (aspectRatio : Q)
    (settings : LayerSettingsGrid) : vec2 :=
  let FovAtGroundplane :=
    (Math_sin (fovy cameraState / 2) * distance cameraState)%Q in
  let followNudge := rangeMarkerFollowCameraNudge settings in
  ((FovAtGroundplane + (targetOffset cameraState).1.1 + followNudge.1)%Q,
   (FovAtGroundplane * aspectRatio - (targetOffset cameraState).1.2
    + followNudge.2)%Q).

Definition gridBounds (settings : LayerSettingsGrid) : vec2 :=
  let gridNudge := ((1 # 2) * gridSize settings / gridDivisions settings)%Q in
  (((gridPosition settings).1.1 - gridSize settings / 2 - gridNudge)%Q,
   (- (gridPosition settings).1.2 - gridSize settings / 2 - gridNudge)%Q).

Definition nudgeRangeMarkersIntoView (st : State) (settings : LayerSettingsGrid)
  : vec2 :=
  match cameraState st with
  | None => rangeMarkerPosition settings
  | Some cameraState =>
      let renderSize := drawingBufferSize st in
      let aspectRatio := (renderSize.1 / renderSize.2)%Q in
      let viewportBounds := viewportBounds cameraState aspectRatio settings in
      let gridBounds := gridBounds settings in
      (if Qltb gridBounds.1 viewportBounds.1
       then viewportBounds.1 else gridBounds.1,
       if Qltb gridBounds.2 viewportBounds.2
       then viewportBounds.2 else gridBounds.2)
  end.

(** *** #createRenderable and #updateGrid *)

Definition TEXTS_topic (instanceId : string) : string :=
  (instanceId ++ ":TEXTS")%string.

Definition withRangeMarkerPosition (settings : LayerSettingsGrid)
    (position : vec2) : LayerSettingsGrid := {|
  visible := visible settings;
  frameLocked := frameLocked settings;
  label := label settings;
  instanceId := instanceId settings;
  layerId := layerId settings;
  frameId := frameId settings;
  gridSize := gridSize settings;
  gridDivisions := gridDivisions settings;
  gridLineWidth := gridLineWidth settings;
  gridColor := gridColor settings;
  gridPosition := gridPosition settings;
  gridRotation := gridRotation settings;
  rangeMarkerVisible := rangeMarkerVisible settings;
  rangeMarkerFollowCamera := rangeMarkerFollowCamera settings;
  rangeMarkerFollowCameraNudge := rangeMarkerFollowCameraNudge settings;
  rangeMarkerPosition := position;
  rangeMarkerFontSize := rangeMarkerFontSize settings;
  rangeMarkerFontColor := rangeMarkerFontColor settings
|}.

(** Builds the renderable, adds it to the scene and stores it under its
    instance id. *)
Definition createRenderable (instanceId : string) (settings : LayerSettingsGrid)
    (st : State) : GridRenderable * State :=
  let lineList := createLineList settings in
  let renderableLineList :=
    mkRenderableLineList (instanceId ++ ":LINE_LIST")%string lineList in
  let texts := createTexts settings in
  let renderableTexts := mkRenderableTexts (TEXTS_topic instanceId) texts in
  let renderable := {|
    name := instanceId;
    receiveTime := 0;
    messageTime := 0;
    userData_frameId := "";
    userData_pose := makePose;
    settingsPath := ["layers"; instanceId];
    userData_settings := settings;
    userData_lineList := renderableLineList;
    userData_texts := renderableTexts |} in
  (renderable,
   {| layers := layers st;
      renderables := <[instanceId := renderable]> (renderables st);
      children := children st ++ [instanceId];
      trace := trace st;
      cameraState := cameraState st;
      drawingBufferSize := drawingBufferSize st;
      coordinateFrameList := coordinateFrameList st;
      settingsTree := settingsTree st |}).

(** The renderable of [instanceId] as [#updateGrid] finds or creates it; a
    created one gets its pose from [xyzrpyToPose] at once. *)
Definition obtainRenderable (instanceId : string)
    (newSettings : LayerSettingsGrid) (st : State) : GridRenderable * State :=
  match renderables st !! instanceId with
  | Some renderable => (renderable, st)
  | None =>
      let '(renderable, st1) := createRenderable instanceId newSettings st in
      ({| name := name renderable;
          receiveTime := receiveTime renderable;
          messageTime := messageTime renderable;
          userData_frameId := userData_frameId renderable;
          userData_pose :=
            xyzrpyToPose (gridPosition newSettings) (gridRotation newSettings);
          settingsPath := settingsPath renderable;
          userData_settings := userData_settings renderable;
          userData_lineList := userData_lineList renderable;
          userData_texts := userData_texts renderable |},
       {| layers := layers st1;
          renderables := renderables st1;
          children := children st1;
          trace := trace st1 ++ [PoseComputed instanceId
                     (gridPosition newSettings) (gridRotation newSettings)];
          cameraState := cameraState st1;
          drawingBufferSize := drawingBufferSize st1;
          coordinateFrameList := coordinateFrameList st1;
          settingsTree := settingsTree st1 |})
  end.

(** The test guarding the pose update. *)
Definition poseChanged (newSettings prevSettings : LayerSettingsGrid) : bool :=
  negb (vec3TupleApproxEquals (gridPosition newSettings)
          (gridPosition prevSettings))
  || negb (vec3TupleApproxEquals (gridRotation newSettings)
             (gridRotation prevSettings)).

(** The block [if (newSettings.rangeMarkerFollowCamera) { ... }]. *)
Definition followCameraSettings (st : State) (newSettings : LayerSettingsGrid)
  : LayerSettingsGrid :=
  if rangeMarkerFollowCamera newSettings
  then withRangeMarkerPosition newSettings
         (nudgeRangeMarkersIntoView st newSettings)
  else newSettings.

Definition updateGrid (instanceId : string) (settings : option LayerEntry)
    (st : State) : State :=
  match settings with
  | None =>
      (* Handle deletes *)
      match renderables st !! instanceId with
      | Some renderable =>
          {| layers := layers st;
             renderables := delete instanceId (renderables st);
             children := filter (fun child => child <> instanceId) (children st);
             trace := trace st ++ [Disposed instanceId LineListPart;
                                   Disposed instanceId TextsPart];
             cameraState := cameraState st;
             drawingBufferSize := drawingBufferSize st;
             coordinateFrameList := coordinateFrameList st;
             settingsTree := settingsTree st |}
      | None => st
      end
  | Some settings =>
      let newSettings := mergeSettings settings in
      let '(renderable, st1) := obtainRenderable instanceId newSettings st in
      let prevSettings := userData_settings renderable in
      let newSettings := followCameraSettings st1 newSettings in
      let lineList' := createLineList newSettings in
      let texts' := createTexts newSettings in
      let changed := poseChanged newSettings prevSettings in
      let renderable' := {|
        name := name renderable;
        receiveTime := receiveTime renderable;
        messageTime := messageTime renderable;
        userData_frameId := userData_frameId renderable;
        userData_pose :=
          if changed
          then xyzrpyToPose (gridPosition newSettings) (gridRotation newSettings)
          else userData_pose renderable;
        settingsPath := settingsPath renderable;
        userData_settings := newSettings;
        userData_lineList :=
          mkRenderableLineList
            (lineList_name (userData_lineList renderable)) lineList';
        userData_texts := mkRenderableTexts (TEXTS_topic instanceId) texts' |} in
      {| layers := layers st1;
         renderables := <[instanceId := renderable']> (renderables st1);
         children := children st1;
         trace :=
           if changed
           then trace st1 ++ [PoseComputed instanceId
                  (gridPosition newSettings) (gridRotation newSettings)]
           else trace st1;
         cameraState := cameraState st1;
         drawingBufferSize := drawingBufferSize st1;
         coordinateFrameList := coordinateFrameList st1;
         settingsTree := settingsTree st1 |}
  end.

(** *** settingsNodes *)

(** [config.key ?? fallback] on a number. *)
Definition numOr (config : LayerEntry) (key : string) (fallback : Q) : Q :=
  getNum config key fallback.

Definition gridFields (config : LayerEntry)
    (coordinateFrameList : list (string * option string))
  : list (string * SettingsTreeField) :=
  let frameIdOptions := ("<Display frame>", None) :: coordinateFrameList in
  let markerStep :=
    ((1 # 4) * numOr config "gridSize" DEFAULT_GRID_SIZE
     / numOr config "gridDivisions" DEFAULT_GRID_DIVISIONS)%Q in
  let followCamera :=
    getBool config "rangeMarkerFollowCamera" DEFAULT_RANGE_MARKER_FOLLOW_CAMERA in
  [ ("frameId",
     mkSettingsTreeField (t "threeDee:frame") false
       (InputSelect frameIdOptions (config !! "frameId")));
    ("gridSize",
     mkSettingsTreeField (t "threeDee:size") false
       (InputNumber (Some 0%Q) None (1 # 2) PRECISION_DISTANCE
          (config !! "gridSize") "10"));
    ("gridDivisions",
     mkSettingsTreeField (t "threeDee:divisions") false
       (InputNumber (Some 1%Q) (Some MAX_DIVISIONS) 1 0
          (config !! "gridDivisions") "10"));
    ("gridLineWidth",
     mkSettingsTreeField (t "threeDee:lineWidth") false
       (InputNumber (Some 0%Q) None (1 # 2) 1
          (config !! "gridLineWidth") "1"));
    ("gridColor",
     mkSettingsTreeField (t "threeDee:color") false
       (InputRgba (config !! "gridColor") DEFAULT_GRID_COLOR));
    ("gridPosition",
     mkSettingsTreeField (t "threeDee:position") false
       (InputVec3 ["X"; "Y"; "Z"] PRECISION_DISTANCE
          (VVec3 (getVec3 config "gridPosition" (0, 0, 0)%Q))));
    ("gridRotation",
     mkSettingsTreeField (t "threeDee:rotation") false
       (InputVec3 ["R"; "P"; "Y"] PRECISION_DEGREES
          (VVec3 (getVec3 config "gridRotation" (0, 0, 0)%Q))));
    ("rangeMarkerVisible",
     mkSettingsTreeField "Range Markers" false
       (InputBoolean (config !! "rangeMarkerVisible")));
    ("rangeMarkerFollowCamera",
     mkSettingsTreeField "Follow Camera" true
       (InputBoolean (config !! "rangeMarkerFollowCamera")));
    ("rangeMarkerFollowCameraNudge",
     mkSettingsTreeField "Nudge" (negb followCamera)
       (InputVec2 ["X"; "Y"] markerStep PRECISION_DISTANCE
          (config !! "rangeMarkerFollowCameraNudge")));
    ("rangeMarkerPosition",
     mkSettingsTreeField "Position" followCamera
       (InputVec2 ["X"; "Y"] markerStep PRECISION_DISTANCE
          (config !! "rangeMarkerPosition")));
    ("rangeMarkerFontSize",
     mkSettingsTreeField "Markers Font Size" false
       (InputNumber (Some 0%Q) None 1 0
          (config !! "rangeMarkerFontSize") "20"));
    ("rangeMarkerFontColor",
     mkSettingsTreeField "Markers Font Color" false
       (InputRgba (config !! "rangeMarkerFontColor")
          DEFAULT_RANGE_MARKER_FONT_COLOR)) ].

(** One turn of the loop of [settingsNodes] over the entries of the
    config. *)
Definition settingsNodesStep (acc : list SettingsTreeEntry * State)
    (item : string * LayerEntry) : list SettingsTreeEntry * State :=
  let '(entries, st) := acc in
  let '(instanceId, layerConfig) := item in
  if negb (isGridLayer layerConfig) then (entries, st)
  else
    let config := layerConfig in
    let fields := gridFields config (coordinateFrameList st) in
    let entry := {|
      entry_path := ["layers"; instanceId];
      entry_node := {|
        node_label := getStr config "label" (t "threeDee:grid");
        node_icon := "Grid";
        node_fields := fields;
        node_visible := getBool config "visible" (visible DEFAULT_SETTINGS);
        node_actions := [("action", "delete", t "threeDee:delete")];
        node_order := layerConfig !! "order" |} |} in
    (* Create renderables for new grid layers *)
    let st' :=
      match renderables st !! instanceId with
      | Some _ => st
      | None => updateGrid instanceId (Some config) st
      end in
    (entries ++ [entry], st').

(** The entries of the config are visited in the order of [map_to_list],
    where the source follows the insertion order of the object's keys. *)
Definition settingsNodes (st : State) : list SettingsTreeEntry * State :=
  foldl settingsNodesStep ([], st) (map_to_list (layers st)).

(** *** Writing the config *)

(** Modelled from the spec: [renderer.updateConfig] belongs to the renderer.
    The config is a mutable object the renderer exposes and this extension
    asks it to change; of the config the model holds [layers]. *)
Definition updateConfig (change : gmap string LayerEntry -> gmap string LayerEntry)
    (st : State) : State :=
  {| layers := change (layers st);
     renderables := renderables st;
     children := children st;
     trace := trace st;
     cameraState := cameraState st;
     drawingBufferSize := drawingBufferSize st;
     coordinateFrameList := coordinateFrameList st;
     settingsTree := settingsTree st |}.

(** Modelled from the spec: [SceneExtension.updateSettingsTree] belongs to
    the base class. A settings mutation is followed at once by a rebuild of
    the settings tree: the nodes of [settingsNodes] are published. *)
Definition updateSettingsTree (st : State) : State :=
  let '(nodes, st') := settingsNodes st in
  {| layers := layers st';
     renderables := renderables st';
     children := children st';
     trace := trace st';
     cameraState := cameraState st';
     drawingBufferSize := drawingBufferSize st';
     coordinateFrameList := coordinateFrameList st';
     settingsTree := nodes |}.

(** The object at [path] of the config gets [value]: for a path
    [["layers"; instanceId; field]] the single field is merged into that
    instance's entry (made first if missing). Other paths leave [layers]
    alone. *)
Definition setPath (path : list string) (value : Value)
    (layers : gmap string LayerEntry) : gmap string LayerEntry :=
  match path with
  | [root; instanceId; field] =>
      if String.eqb root "layers"
      then <[instanceId := <[field := value]> (default ∅ (layers !! instanceId))]>
             layers
      else layers
  | _ => layers
  end.

(** Modelled from the spec: [SceneExtension.saveSetting] belongs to the base
    class. A field update with a three-segment path merges the single field
    into that instance's settings, and the settings tree is rebuilt. *)
Definition saveSetting (path : list string) (value : Value) (st : State) : State :=
  updateSettingsTree (updateConfig (setPath path value) st).

(** *** Handlers *)

Definition handleSettingsAction (action : SettingsTreeAction) (st : State)
  : State :=
  match action with
  | PerformNodeAction path id =>
      (* Handle menu actions (delete) *)
      if decide (length path = 2%nat /\ id = "delete") then
        match path !! 1%nat with
        | Some instanceId =>
            (* Remove this instance from the config *)
            let st1 := updateConfig (delete instanceId) st in
            (* Remove the renderable *)
            let st2 := updateGrid instanceId None st1 in
            (* Update the settings tree; [renderer.updateCustomLayersCount]
               touches nothing held here *)
            updateSettingsTree st2
        | None => st
        end
      else st
  | Update path value =>
      if decide (length path <> 3%nat) then st
      else
        let st1 := saveSetting path value st in
        match path !! 1%nat with
        | Some instanceId =>
            let settings := layers st1 !! instanceId in
            updateGrid instanceId settings st1
        | None => st1
        end
  end.

(** One turn of the loop of [#handleRangeMarkersConfigChanged]. *)
Definition rangeMarkersStep (rangeMarkersConfig : RangeMarkersConfig)
    (st : State) (item : string * LayerEntry) : State :=
  let '(instanceId, entry) := item in
  if negb (isGridLayer entry) then st
  else
    let st1 :=
      saveSetting ["layers"; instanceId; "rangeMarkerVisible"] (VBool true) st in
    let st2 :=
      saveSetting ["layers"; instanceId; "rangeMarkerFollowCameraNudge"]
        (VVec2 (0, 0)%Q) st1 in
    let st3 :=
      saveSetting ["layers"; instanceId; "rangeMarkerFollowCamera"]
        (VBool (followCamera rangeMarkersConfig)) st2 in
    let st4 := updateSettingsTree st3 in
    let settings := layers st4 !! instanceId in
    updateGrid instanceId settings st4.

Definition handleRangeMarkersConfigChanged
    (rangeMarkersConfig : RangeMarkersConfig) (st : State) : State :=
  foldl (rangeMarkersStep rangeMarkersConfig) st (map_to_list (layers st)).

Definition gridLayerStep (st : State) (item : string * LayerEntry) : State :=
  let '(instanceId, entry) := item in
  if isGridLayer entry then updateGrid instanceId (Some entry) st else st.

Definition handleCameraStateChanged (st : State) : State :=
  foldl gridLayerStep st (map_to_list (layers st)).

(** The loop of the constructor: load existing grid layers from the
    config. *)
Definition loadExistingLayers (st : State) : State :=
  foldl gridLayerStep st (map_to_list (layers st)).

(** [1 + (maxOrderLayer?.order ?? 0)] *)
Definition nextOrder (layers : gmap string LayerEntry) : Q :=
  let orders := omap (fun item => getOptNum item.2 "order") (map_to_list layers) in
  match orders with
  | [] => 1
  | first :: rest =>
      (1 + foldl (fun best order => if Qltb best order then order else best)
             first rest)%Q
  end.

Definition handleAddGrid (instanceId : string) (st : State) : State :=
  let config := {|
    visible := visible DEFAULT_SETTINGS;
    frameLocked := frameLocked DEFAULT_SETTINGS;
    label := label DEFAULT_SETTINGS;
    instanceId := instanceId;
    layerId := layerId DEFAULT_SETTINGS;
    frameId := frameId DEFAULT_SETTINGS;
    gridSize := gridSize DEFAULT_SETTINGS;
    gridDivisions := gridDivisions DEFAULT_SETTINGS;
    gridLineWidth := gridLineWidth DEFAULT_SETTINGS;
    gridColor := gridColor DEFAULT_SETTINGS;
    gridPosition := gridPosition DEFAULT_SETTINGS;
    gridRotation := gridRotation DEFAULT_SETTINGS;
    rangeMarkerVisible := rangeMarkerVisible DEFAULT_SETTINGS;
    rangeMarkerFollowCamera := rangeMarkerFollowCamera DEFAULT_SETTINGS;
    rangeMarkerFollowCameraNudge := rangeMarkerFollowCameraNudge DEFAULT_SETTINGS;
    rangeMarkerPosition := rangeMarkerPosition DEFAULT_SETTINGS;
    rangeMarkerFontSize := rangeMarkerFontSize DEFAULT_SETTINGS;
    rangeMarkerFontColor := rangeMarkerFontColor DEFAULT_SETTINGS |} in
  (* Add this instance to the config *)
  let st1 :=
    updateConfig (fun layers =>
      let order := nextOrder layers in
      <[instanceId := <["order" := VNum order]> (entryOfSettings config)]> layers)
      st in
  (* Add a renderable *)
  let st2 := updateGrid instanceId (Some (entryOfSettings config)) st1 in
  (* Update the settings tree *)
  updateSettingsTree st2.

Definition handleTransformTreeUpdated (st : State) : State :=
  updateSettingsTree st.

Definition removeAllRenderables (st : State) : State :=
  (* no-op *)
  st.

(** *** Invariants of the state *)

(** The scene holds each stored renderable once, and nothing else. *)
Definition sceneConsistent (st : State) : Prop :=
  NoDup (children st) /\
  forall instanceId : string,
    instanceId ∈ children st <-> is_Some (renderables st !! instanceId).

(** Each stored renderable is the one built for its instance id, and its
    two sub-objects hold the geometry of its stored settings. *)
Definition geometryConsistent (st : State) : Prop :=
  forall (instanceId : string) (renderable : GridRenderable),
    renderables st !! instanceId = Some renderable ->
    name renderable = instanceId /\
    settingsPath renderable = ["layers"; instanceId] /\
    lineList_name (userData_lineList renderable)
    = (instanceId ++ ":LINE_LIST")%string /\
    lineList_marker (userData_lineList renderable)
    = createLineList (userData_settings renderable) /\
    userData_texts renderable
    = mkRenderableTexts (TEXTS_topic instanceId)
        (createTexts (userData_settings renderable)).

(** Each grid layer of the config has a renderable showing its current
    settings. *)
Definition synced (st : State) : Prop :=
  forall (instanceId : string) (entry : LayerEntry),
    layers st !! instanceId = Some entry ->
    isGridLayer entry = true ->
    exists renderable : GridRenderable,
      renderables st !! instanceId = Some renderable /\
      userData_settings renderable
      = followCameraSettings st (mergeSettings entry).

(** *** startFrame *)

(** The extension's own part of [startFrame]: each renderable gets the
    frame its settings name, or the render frame when they name none. The
    call of the base class that follows is outside this file. *)
Definition startFrame (renderFrameId : string) (st : State) : State :=
  {| layers := layers st;
     renderables :=
       (fun renderable => {|
          name := name renderable;
          receiveTime := receiveTime renderable;
          messageTime := messageTime renderable;
          userData_frameId :=
            default renderFrameId (frameId (userData_settings renderable));
          userData_pose := userData_pose renderable;
          settingsPath := settingsPath renderable;
          userData_settings := userData_settings renderable;
          userData_lineList := userData_lineList renderable;
          userData_texts := userData_texts renderable |})
       <$> renderables st;
     children := children st;
     trace := trace st;
     cameraState := cameraState st;
     drawingBufferSize := drawingBufferSize st;
     coordinateFrameList := coordinateFrameList st;
     settingsTree := settingsTree st |}.

(** The renderable [#updateGrid] stores for an instance id it has not seen,
    given the entry of its settings. *)
Definition createdRenderable (st : State) (instanceId : string)
    (entry : LayerEntry) : GridRenderable :=
  let newSettings := followCameraSettings st (mergeSettings entry) in
  {| name := instanceId;
     receiveTime := 0;
     messageTime := 0;
     userData_frameId := "";
     userData_pose :=
       xyzrpyToPose (gridPosition newSettings) (gridRotation newSettings);
     settingsPath := ["layers"; instanceId];
     userData_settings := newSettings;
     userData_lineList :=
       mkRenderableLineList (instanceId ++ ":LINE_LIST")%string
         (createLineList newSettings);
     userData_texts :=
       mkRenderableTexts (TEXTS_topic instanceId) (createTexts newSettings) |}.

(** The node [settingsNodes] pushes for one grid layer. *)
Definition settingsNode (frames : list (string * option string))
    (item : string * LayerEntry) : SettingsTreeEntry :=
  {| entry_path := ["layers"; item.1];
     entry_node := {|
       node_label := getStr item.2 "label" (t "threeDee:grid");
       node_icon := "Grid";
       node_fields := gridFields item.2 frames;
       node_visible := getBool item.2 "visible" (visible DEFAULT_SETTINGS);
       node_actions := [("action", "delete", t "threeDee:delete")];
       node_order := item.2 !! "order" |} |}.

(** What a handler reads of the renderer besides the config. *)
Definition sameView (st st' : State) : Prop :=
  cameraState st' = cameraState st /\
  drawingBufferSize st' = drawingBufferSize st /\
  coordinateFrameList st' = coordinateFrameList st.

(** [synced], for one instance id. *)
Definition syncedAt (st : State) (instanceId : string) : Prop :=
  forall entry : LayerEntry,
    layers st !! instanceId = Some entry ->
    isGridLayer entry = true ->
    exists renderable : GridRenderable,
      renderables st !! instanceId = Some renderable /\
      userData_settings renderable
      = followCameraSettings st (mergeSettings entry).

(** ** Properties *)

(** *** Numbers *)

Lemma Qltb_lt (u v : Q) : Qltb u v = true <-> (u < v)%Q.
Proof.
  unfold Qltb. rewrite negb_true_iff. split.
  - intros H. apply Qnot_le_lt. intros Hle.
    apply Qle_bool_iff in Hle. congruence.
  - intros H. destruct (Qle_bool v u) eqn:E; [|reflexivity].
    apply Qle_bool_iff in E. exfalso. exact (Qlt_not_le _ _ H E).
Qed.

Lemma Qltb_ge (u v : Q) : Qltb u v = false <-> (v <= u)%Q.
Proof.
  unfold Qltb. rewrite negb_false_iff. apply Qle_bool_iff.
Qed.

(** *** The counted loop *)

Lemma for_le_step {A : Type} (bound : Q) (body : Z -> list A -> list A)
    (i : Z) (acc : list A) :
  Qle_bool (inject_Z i) bound = true ->
  for_le bound body i acc = for_le bound body (i + 1) (body i acc).
Proof.
  intros Hguard. rewrite for_le_equation_1.
  generalize (inspect (Qle_bool (inject_Z i) bound)).
  intros [[|] Heq]; simpl; [reflexivity|congruence].
Qed.

Lemma for_le_stop {A : Type} (bound : Q) (body : Z -> list A -> list A)
    (i : Z) (acc : list A) :
  Qle_bool (inject_Z i) bound = false ->
  for_le bound body i acc = acc.
Proof.
  intros Hguard. rewrite for_le_equation_1.
  generalize (inspect (Qle_bool (inject_Z i) bound)).
  intros [[|] Heq]; simpl; [congruence|reflexivity].
Qed.


(** A body that only pushes leaves the loop with the pushed chunks in
    order. *)
Lemma foldl_push {A : Type} (chunk : Z -> list A) (ks : list Z) (acc : list A) :
  foldl (fun acc k => acc ++ chunk k) acc ks = acc ++ mjoin (chunk <$> ks).
Proof.
  revert acc. induction ks as [|k ks IH]; intros acc; simpl.
  - by rewrite app_nil_r.
  - rewrite IH. by rewrite <- app_assoc.
Qed.


(** A negative bound: the body never runs. *)
Lemma for_le_negative {A : Type} (bound : Q) (body : Z -> list A -> list A)
    (acc : list A) :
  (bound < 0)%Q -> for_le bound body 0 acc = acc.
Proof.
  intros Hneg. apply for_le_stop.
  destruct (Qle_bool (inject_Z 0) bound) eqn:E; [|reflexivity].
  apply Qle_bool_iff in E. exfalso. exact (Qlt_not_le _ _ Hneg E).
Qed.

(** *** createLineList *)

Lemma lineListBody_push (halfSize step : Q) :
  lineListBody halfSize step
  = fun i points => points ++ lineListBody halfSize step i [].
Proof. reflexivity. Qed.






(** *** createTexts *)


Lemma textsBody_push (settings : LayerSettingsGrid) (color : ColorRGBA)
    (halfSize step : Q) :
  textsBody settings color halfSize step
  = fun i texts => texts ++ textsBody settings color halfSize step i [].
Proof. reflexivity. Qed.


(** *** #nudgeRangeMarkersIntoView *)

Lemma greater_of_two (u v : Q) :
  let m := if Qltb v u then u else v in
  (m == Qmax u v)%Q /\ (m = u \/ m = v) /\ (u <= m)%Q /\ (v <= m)%Q.
Proof.
  simpl. destruct (Qltb v u) eqn:E.
  - apply Qltb_lt in E. split; [|split; [by left|split]].
    + symmetry. apply Q.max_l. by apply Qlt_le_weak.
    + apply Qle_refl.
    + by apply Qlt_le_weak.
  - apply Qltb_ge in E. split; [|split; [by right|split]].
    + symmetry. by apply Q.max_r.
    + done.
    + apply Qle_refl.
Qed.

Lemma followCameraSettings_grid (st : State) (newSettings : LayerSettingsGrid) :
  gridPosition (followCameraSettings st newSettings) = gridPosition newSettings /\
  gridRotation (followCameraSettings st newSettings) = gridRotation newSettings /\
  gridSize (followCameraSettings st newSettings) = gridSize newSettings /\
  gridDivisions (followCameraSettings st newSettings)
  = gridDivisions newSettings.
Proof.
  unfold followCameraSettings.
  by destruct (rangeMarkerFollowCamera newSettings).
Qed.

(** *** #updateGrid *)

(** What a call of [#updateGrid] with settings leaves under the instance
    id, in terms of the renderable it found or created. *)
Lemma updateGrid_settings_lookup (instanceId : string) (entry : LayerEntry)
    (st : State) :
  let found := obtainRenderable instanceId (mergeSettings entry) st in
  let newSettings := followCameraSettings found.2 (mergeSettings entry) in
  let changed := poseChanged newSettings (userData_settings found.1) in
  renderables (updateGrid instanceId (Some entry) st) !! instanceId
  = Some {|
      name := name found.1;
      receiveTime := receiveTime found.1;
      messageTime := messageTime found.1;
      userData_frameId := userData_frameId found.1;
      userData_pose :=
        if changed
        then xyzrpyToPose (gridPosition newSettings) (gridRotation newSettings)
        else userData_pose found.1;
      settingsPath := settingsPath found.1;
      userData_settings := newSettings;
      userData_lineList :=
        mkRenderableLineList (lineList_name (userData_lineList found.1))
          (createLineList newSettings);
      userData_texts :=
        mkRenderableTexts (TEXTS_topic instanceId) (createTexts newSettings) |}.
Proof.
  simpl. unfold updateGrid.
  destruct (obtainRenderable instanceId (mergeSettings entry) st)
    as [renderable st1].
  simpl. by rewrite lookup_insert_eq.
Qed.

Lemma obtainRenderable_found (instanceId : string)
    (newSettings : LayerSettingsGrid) (st : State) (renderable : GridRenderable) :
  renderables st !! instanceId = Some renderable ->
  obtainRenderable instanceId newSettings st = (renderable, st).
Proof. intros Hfound. unfold obtainRenderable. by rewrite Hfound. Qed.

(** [#updateGrid] reads the renderer and never writes to it. *)
Lemma updateGrid_renderer (instanceId : string) (settings : option LayerEntry)
    (st : State) :
  let st' := updateGrid instanceId settings st in
  layers st' = layers st /\
  cameraState st' = cameraState st /\
  drawingBufferSize st' = drawingBufferSize st /\
  coordinateFrameList st' = coordinateFrameList st /\
  settingsTree st' = settingsTree st.
Proof.
  simpl. unfold updateGrid, obtainRenderable.
  destruct settings as [entry|];
    destruct (renderables st !! instanceId); simpl; done.
Qed.

(** C6. Deleting an instance id that was never created, that is calling
    the update path with undefined settings for it, is a no-op: the call
    returns the state it was given, so the mapping from instance ids to
    renderables is unchanged and no dispose routine is invoked. *)
Theorem updateGrid_delete_absent (instanceId : string) (st : State) :
  renderables st !! instanceId = None ->
  updateGrid instanceId None st = st /\
  renderables (updateGrid instanceId None st) = renderables st /\
  trace (updateGrid instanceId None st) = trace st /\
  children (updateGrid instanceId None st) = children st.
Proof.
  intros Habsent. unfold updateGrid. by rewrite Habsent.
Qed.

(** C7. On an update of an existing renderable (with settings of their
    declared types) the pose is recomputed if and only if the new grid
    position or the new grid rotation differs from the previous one under
    [vec3TupleApproxEquals]; when both are approximately equal the pose is
    the one the renderable had. *)
Theorem pose_recomputed_iff_changed (instanceId : string) (entry : LayerEntry)
    (st : State) (renderable : GridRenderable) :
  wellTypedEntry entry = true ->
  renderables st !! instanceId = Some renderable ->
  let newSettings := mergeSettings entry in
  let prevSettings := userData_settings renderable in
  let differs :=
    vec3TupleApproxEquals (gridPosition newSettings)
      (gridPosition prevSettings) = false \/
    vec3TupleApproxEquals (gridRotation newSettings)
      (gridRotation prevSettings) = false in
  let recomputed :=
    PoseComputed instanceId (gridPosition newSettings)
      (gridRotation newSettings) in
  let st' := updateGrid instanceId (Some entry) st in
  exists renderable' : GridRenderable,
    renderables st' !! instanceId = Some renderable' /\
    (differs <-> trace st' = trace st ++ [recomputed]) /\
    (differs ->
     userData_pose renderable'
     = xyzrpyToPose (gridPosition newSettings) (gridRotation newSettings)) /\
    (~ differs ->
     userData_pose renderable' = userData_pose renderable /\
     trace st' = trace st).
Proof.
  intros _ Hfound newSettings prevSettings differs recomputed st'.
  pose proof (updateGrid_settings_lookup instanceId entry st) as Hlookup.
  cbv zeta in Hlookup.
  rewrite (obtainRenderable_found _ _ _ _ Hfound) in Hlookup.
  cbn [fst snd] in Hlookup.
  eexists. split; [exact Hlookup|].
  destruct (followCameraSettings_grid st (mergeSettings entry))
    as (Hposition & Hrotation & _).
  assert (poseChanged (followCameraSettings st (mergeSettings entry))
            (userData_settings renderable) = true <-> differs) as Hchanged.
  { unfold poseChanged, differs, newSettings, prevSettings.
    rewrite Hposition, Hrotation, orb_true_iff, !negb_true_iff. done. }
  assert (trace st'
          = if poseChanged (followCameraSettings st (mergeSettings entry))
                 (userData_settings renderable)
            then trace st ++ [recomputed] else trace st) as Htrace.
  { unfold st', updateGrid.
    rewrite (obtainRenderable_found _ _ _ _ Hfound). simpl.
    unfold recomputed, newSettings. by rewrite Hposition, Hrotation. }
  cbn [userData_pose]. rewrite Htrace, Hposition, Hrotation.
  destruct (poseChanged (followCameraSettings st (mergeSettings entry))
              (userData_settings renderable)) eqn:E.
  - assert differs as Hdiffers by (by apply Hchanged).
    split; [done|]. split; [done|]. intros Hnot. by destruct Hnot.
  - assert (~ differs) as Hnot.
    { intros Hdiffers. apply Hchanged in Hdiffers. congruence. }
    split; [|split; [done|done]].
    split; [done|].
    intros Hgrown. apply (f_equal length) in Hgrown.
    rewrite length_app in Hgrown. simpl in Hgrown. lia.
Qed.

Lemma nudgeRangeMarkersIntoView_ext (st st' : State)
    (settings : LayerSettingsGrid) :
  cameraState st' = cameraState st ->
  drawingBufferSize st' = drawingBufferSize st ->
  nudgeRangeMarkersIntoView st' settings = nudgeRangeMarkersIntoView st settings.
Proof.
  intros Hcamera Hsize. unfold nudgeRangeMarkersIntoView.
  by rewrite Hcamera, Hsize.
Qed.

Lemma followCameraSettings_ext (st st' : State) (settings : LayerSettingsGrid) :
  cameraState st' = cameraState st ->
  drawingBufferSize st' = drawingBufferSize st ->
  followCameraSettings st' settings = followCameraSettings st settings.
Proof.
  intros Hcamera Hsize. unfold followCameraSettings.
  by rewrite (nudgeRangeMarkersIntoView_ext st st').
Qed.

Lemma obtainRenderable_renderer (instanceId : string)
    (newSettings : LayerSettingsGrid) (st : State) :
  let found := obtainRenderable instanceId newSettings st in
  cameraState found.2 = cameraState st /\
  drawingBufferSize found.2 = drawingBufferSize st.
Proof.
  simpl. unfold obtainRenderable.
  by destruct (renderables st !! instanceId).
Qed.

(** The settings a call of [#updateGrid] works with, and what it leaves
    under the instance id. *)
Lemma updateGrid_result (instanceId : string) (entry : LayerEntry) (st : State) :
  let newSettings := followCameraSettings st (mergeSettings entry) in
  exists renderable : GridRenderable,
    renderables (updateGrid instanceId (Some entry) st) !! instanceId
    = Some renderable /\
    userData_settings renderable = newSettings /\
    lineList_marker (userData_lineList renderable) = createLineList newSettings /\
    lineList_name (userData_lineList renderable)
    = lineList_name
        (userData_lineList
           (obtainRenderable instanceId (mergeSettings entry) st).1) /\
    userData_texts renderable
    = mkRenderableTexts (TEXTS_topic instanceId) (createTexts newSettings).
Proof.
  intros newSettings.
  pose proof (updateGrid_settings_lookup instanceId entry st) as Hlookup.
  cbv zeta in Hlookup.
  destruct (obtainRenderable_renderer instanceId (mergeSettings entry) st)
    as [Hcamera Hsize].
  rewrite (followCameraSettings_ext st _ _ Hcamera Hsize) in Hlookup.
  eexists. split; [exact Hlookup|]. done.
Qed.

(** C8. The update path is idempotent on geometry: called twice in
    succession with the same settings, of their declared types (the camera
    state is part of the state and is not written), it leaves after the
    second call the very line list and labels of the first, each the output
    of its generator on the stored settings; nothing is appended and no
    renderable is added. *)
Theorem updateGrid_idempotent (instanceId : string) (entry : LayerEntry)
    (st : State) :
  wellTypedEntry entry = true ->
  let st1 := updateGrid instanceId (Some entry) st in
  let st2 := updateGrid instanceId (Some entry) st1 in
  exists first second : GridRenderable,
    renderables st1 !! instanceId = Some first /\
    renderables st2 !! instanceId = Some second /\
    userData_lineList second = userData_lineList first /\
    userData_texts second = userData_texts first /\
    userData_settings second = userData_settings first /\
    lineList_marker (userData_lineList first)
    = createLineList (userData_settings first) /\
    texts_entity (userData_texts first)
    = createTexts (userData_settings first) /\
    children st2 = children st1 /\
    dom (renderables st2) = dom (renderables st1).
Proof.
  intros _ st1 st2.
  destruct (updateGrid_result instanceId entry st)
    as (first & Hfirst & Hsettings1 & Hmarker1 & Hname1 & Htexts1).
  destruct (updateGrid_result instanceId entry st1)
    as (second & Hsecond & Hsettings2 & Hmarker2 & Hname2 & Htexts2).
  fold st1 in Hfirst. fold st2 in Hsecond.
  destruct (updateGrid_renderer instanceId (Some entry) st)
    as (_ & Hcamera & Hsize & _).
  fold st1 in Hcamera, Hsize.
  rewrite (followCameraSettings_ext st st1 _ Hcamera Hsize) in *.
  rewrite (obtainRenderable_found _ _ _ _ Hfirst) in Hname2.
  cbn [fst] in Hname2.
  exists first, second.
  split; [done|]. split; [done|].
  split.
  { destruct (userData_lineList second), (userData_lineList first).
    simpl in *. congruence. }
  split; [congruence|]. split; [congruence|].
  split; [congruence|]. split; [by rewrite Htexts1, Hsettings1|].
  unfold st2, updateGrid.
  rewrite (obtainRenderable_found _ _ _ _ Hfirst). cbn [children renderables].
  split; [done|].
  rewrite dom_insert_L. apply set_eq. intros key.
  rewrite elem_of_union, elem_of_singleton.
  split; [|by right]. intros [->|Hkey]; [|done].
  by apply elem_of_dom.
Qed.

(** C1, amended. The settings tree declares the bounds 1 and 4096 on the
    division count field, for the editor. The update path itself does not
    clamp: for a configuration entry of the declared types, the division
    count it stores and hands to both generators is the number the entry
    holds under [gridDivisions], or 10 when the entry has no such key. *)
Theorem division_count_passed_through (instanceId : string)
    (entry : LayerEntry) (st : State) :
  wellTypedEntry entry = true ->
  (exists renderable : GridRenderable,
     renderables (updateGrid instanceId (Some entry) st) !! instanceId
     = Some renderable /\
     (entry !! "gridDivisions" = None ->
      gridDivisions (userData_settings renderable) = 10%Q) /\
     (forall D : Q,
        entry !! "gridDivisions" = Some (VNum D) ->
        gridDivisions (userData_settings renderable) = D) /\
     lineList_marker (userData_lineList renderable)
     = createLineList (userData_settings renderable) /\
     texts_entity (userData_texts renderable)
     = createTexts (userData_settings renderable)) /\
  (forall frames : list (string * option string),
     ("gridDivisions",
      mkSettingsTreeField (t "threeDee:divisions") false
        (InputNumber (Some 1%Q) (Some 4096%Q) 1 0
           (entry !! "gridDivisions") "10"))
     ∈ gridFields entry frames).
Proof.
  intros _. split.
  - destruct (updateGrid_result instanceId entry st)
      as (renderable & Hlookup & Hsettings & Hmarker & _ & Htexts).
    exists renderable. split; [done|].
    rewrite Hsettings, Hmarker, Htexts.
    destruct (followCameraSettings_grid st (mergeSettings entry))
      as (_ & _ & _ & ->).
    cbn [mergeSettings gridDivisions]. unfold getNum.
    split; [by intros ->|]. split; [by intros D ->|]. done.
  - intros frames. unfold gridFields.
    do 2 apply list_elem_of_further. apply list_elem_of_here.
Qed.

(** C4. With a camera state available (and the two divisions defined: a
    drawing buffer of non-zero height, a non-zero division count), the
    range-marker position computed for camera-follow is the component-wise
    maximum of the viewport bound and the grid bound; it is the position
    the update path stores when camera-follow is enabled. *)
Theorem nudge_componentwise_max (st : State) (settings : LayerSettingsGrid)
    (camera : CameraState) :
  cameraState st = Some camera ->
  ~ ((drawingBufferSize st).2 == 0)%Q ->
  ~ (gridDivisions settings == 0)%Q ->
  let aspectRatio := ((drawingBufferSize st).1 / (drawingBufferSize st).2)%Q in
  let atGroundplane := (Math_sin (fovy camera / 2) * distance camera)%Q in
  let viewport : vec2 :=
    ((atGroundplane + (targetOffset camera).1.1
      + (rangeMarkerFollowCameraNudge settings).1)%Q,
     (atGroundplane * aspectRatio - (targetOffset camera).1.2
      + (rangeMarkerFollowCameraNudge settings).2)%Q) in
  let gridNudge := ((1 # 2) * gridSize settings / gridDivisions settings)%Q in
  let grid : vec2 :=
    (((gridPosition settings).1.1 - gridSize settings / 2 - gridNudge)%Q,
     (- (gridPosition settings).1.2 - gridSize settings / 2 - gridNudge)%Q) in
  let marker := nudgeRangeMarkersIntoView st settings in
  (marker.1 == Qmax viewport.1 grid.1)%Q /\
  (marker.2 == Qmax viewport.2 grid.2)%Q /\
  (marker.1 = viewport.1 \/ marker.1 = grid.1) /\
  (marker.2 = viewport.2 \/ marker.2 = grid.2) /\
  (forall (instanceId : string) (entry : LayerEntry),
     wellTypedEntry entry = true ->
     mergeSettings entry = settings ->
     rangeMarkerFollowCamera settings = true ->
     exists renderable : GridRenderable,
       renderables (updateGrid instanceId (Some entry) st) !! instanceId
       = Some renderable /\
       rangeMarkerPosition (userData_settings renderable) = marker).
Proof.
  intros Hcamera _ _ aspectRatio atGroundplane viewport gridNudge grid marker.
  assert (marker
          = (if Qltb grid.1 viewport.1 then viewport.1 else grid.1,
             if Qltb grid.2 viewport.2 then viewport.2 else grid.2))
    as Hmarker.
  { unfold marker, nudgeRangeMarkersIntoView. by rewrite Hcamera. }
  destruct (greater_of_two viewport.1 grid.1) as (Hmax1 & Hone1 & _).
  destruct (greater_of_two viewport.2 grid.2) as (Hmax2 & Hone2 & _).
  rewrite Hmarker. cbn [fst snd].
  split; [done|]. split; [done|]. split; [done|]. split; [done|].
  intros instanceId entry _ Hmerge Hfollow.
  destruct (updateGrid_result instanceId entry st)
    as (renderable & Hlookup & Hsettings & _).
  exists renderable. split; [done|].
  rewrite Hsettings, Hmerge. unfold followCameraSettings.
  rewrite Hfollow. cbn [withRangeMarkerPosition rangeMarkerPosition].
  by rewrite <- Hmarker.
Qed.

(** *** handleSettingsAction *)

(** C5. A settings-tree action whose path has the wrong segment count (an
    update whose path does not have three segments, a node action that is
    not a two-segment "delete") is ignored: the handler returns the state
    it was given, so no setting is written and neither the config map nor
    the mapping from instance ids to renderables changes. *)
Theorem malformed_action_ignored (action : SettingsTreeAction) (st : State) :
  match action with
  | Update path _ => length path <> 3%nat
  | PerformNodeAction path id => ~ (length path = 2%nat /\ id = "delete")
  end ->
  handleSettingsAction action st = st /\
  layers (handleSettingsAction action st) = layers st /\
  renderables (handleSettingsAction action st) = renderables st /\
  settingsTree (handleSettingsAction action st) = settingsTree st /\
  trace (handleSettingsAction action st) = trace st.
Proof.
  intros Hmalformed.
  assert (handleSettingsAction action st = st) as ->; [|done].
  unfold handleSettingsAction. destruct action as [path value|path id].
  - by rewrite decide_True.
  - by rewrite decide_False.
Qed.

(** *** removeAllRenderables *)

(** C10. The override of [removeAllRenderables] is a no-op: the mapping
    from instance ids to renderables, the scene membership, every
    renderable with its owned sub-objects, and the record of dispose calls
    are as before. *)
Theorem removeAllRenderables_noop (st : State) :
  removeAllRenderables st = st /\
  renderables (removeAllRenderables st) = renderables st /\
  children (removeAllRenderables st) = children st /\
  trace (removeAllRenderables st) = trace st.
Proof. done. Qed.

(** *** The config under the handlers *)

Arguments updateGrid : simpl never.
Arguments updateSettingsTree : simpl never.
Arguments saveSetting : simpl never.

Lemma settingsNodesStep_layers (acc : list SettingsTreeEntry * State)
    (item : string * LayerEntry) :
  layers (settingsNodesStep acc item).2 = layers acc.2.
Proof.
  destruct acc as [entries st], item as [instanceId layerConfig].
  unfold settingsNodesStep.
  destruct (isGridLayer layerConfig); simpl; [|done].
  destruct (renderables st !! instanceId); [done|].
  apply updateGrid_renderer.
Qed.

Lemma settingsNodes_layers (st : State) :
  layers (settingsNodes st).2 = layers st.
Proof.
  unfold settingsNodes.
  change (layers st) with (layers (([] : list SettingsTreeEntry), st).2) at 2.
  generalize (([] : list SettingsTreeEntry), st) as acc.
  generalize (map_to_list (layers st)) as items.
  induction items as [|item items IH]; intros acc; simpl; [done|].
  by rewrite IH, settingsNodesStep_layers.
Qed.

Lemma updateSettingsTree_layers (st : State) :
  layers (updateSettingsTree st) = layers st.
Proof.
  unfold updateSettingsTree.
  pose proof (settingsNodes_layers st) as Hlayers.
  by destruct (settingsNodes st).
Qed.

Lemma saveSetting_layers (path : list string) (value : Value) (st : State) :
  layers (saveSetting path value st) = setPath path value (layers st).
Proof. unfold saveSetting. by rewrite updateSettingsTree_layers. Qed.

Lemma rangeMarkersStep_layers (rangeMarkersConfig : RangeMarkersConfig)
    (st : State) (instanceId : string) (entry : LayerEntry) :
  layers (rangeMarkersStep rangeMarkersConfig st (instanceId, entry))
  = if isGridLayer entry
    then <[instanceId :=
             withRangeMarkersConfig rangeMarkersConfig
               (default ∅ (layers st !! instanceId))]> (layers st)
    else layers st.
Proof.
  unfold rangeMarkersStep. destruct (isGridLayer entry); simpl; [|done].
  match goal with
  | |- layers (updateGrid ?i ?settings ?st0) = _ =>
      destruct (updateGrid_renderer i settings st0) as [-> _]
  end.
  rewrite updateSettingsTree_layers, !saveSetting_layers.
  unfold setPath, withRangeMarkersConfig. simpl.
  rewrite !lookup_insert_eq. simpl.
  by rewrite !insert_insert_eq.
Qed.

(** The loop of [#handleRangeMarkersConfigChanged] over items with distinct
    keys, as far as the config goes: each grid layer among the items gets
    the three writes, once. *)
Lemma rangeMarkers_fold_layers (rangeMarkersConfig : RangeMarkersConfig)
    (items : list (string * LayerEntry)) :
  NoDup items.*1 ->
  forall st : State,
    (forall instanceId entry,
       (instanceId, entry) ∈ items -> layers st !! instanceId = Some entry) ->
    forall instanceId : string,
      layers (foldl (rangeMarkersStep rangeMarkersConfig) st items) !! instanceId
      = if decide (instanceId ∈ items.*1)
        then (fun entry =>
                if isGridLayer entry
                then withRangeMarkersConfig rangeMarkersConfig entry
                else entry) <$> layers st !! instanceId
        else layers st !! instanceId.
Proof.
  induction items as [|[key entry] items IH]; intros Hnodup st Hitems instanceId.
  - cbn [foldl]. rewrite decide_False; [done|]. apply not_elem_of_nil.
  - cbn [foldl]. rewrite fmap_cons in Hnodup |- *. cbn [fst] in Hnodup |- *.
    apply NoDup_cons in Hnodup as [Hfresh Hnodup].
    assert (layers st !! key = Some entry) as Hkey.
    { apply Hitems, list_elem_of_here. }
    rewrite IH; [|done|].
    + rewrite rangeMarkersStep_layers, Hkey. simpl.
      destruct (decide (instanceId = key)) as [->|Hne].
      * rewrite decide_False by done.
        rewrite decide_True by apply list_elem_of_here.
        rewrite Hkey. simpl.
        destruct (isGridLayer entry); [|done].
        by rewrite lookup_insert_eq.
      * assert ((if isGridLayer entry
                 then <[key := withRangeMarkersConfig rangeMarkersConfig entry]>
                        (layers st)
                 else layers st) !! instanceId = layers st !! instanceId)
          as ->.
        { destruct (isGridLayer entry); [|done].
          by rewrite lookup_insert_ne. }
        destruct (decide (instanceId ∈ items.*1)) as [Hin|Hout].
        -- rewrite decide_True; [done|]. by apply list_elem_of_further.
        -- rewrite decide_False; [done|].
           intros Hin. apply elem_of_cons in Hin as [?|?]; done.
    + intros instanceId' entry' Hin.
      rewrite rangeMarkersStep_layers.
      assert (instanceId' <> key) as Hne.
      { intros ->. apply Hfresh.
        apply list_elem_of_fmap. by exists (key, entry'). }
      assert (layers st !! instanceId' = Some entry') as Hold.
      { by apply Hitems, list_elem_of_further. }
      destruct (isGridLayer entry); [|done].
      by rewrite lookup_insert_ne.
Qed.

Lemma handleRangeMarkersConfigChanged_layers
    (rangeMarkersConfig : RangeMarkersConfig) (st : State) :
  layers (handleRangeMarkersConfigChanged rangeMarkersConfig st)
  = (fun entry =>
       if isGridLayer entry
       then withRangeMarkersConfig rangeMarkersConfig entry
       else entry) <$> layers st.
Proof.
  apply map_eq. intros instanceId. unfold handleRangeMarkersConfigChanged.
  rewrite rangeMarkers_fold_layers.
  - rewrite lookup_fmap. case_decide as Hin; [done|].
    destruct (layers st !! instanceId) as [entry|] eqn:Hentry; [|done].
    exfalso. apply Hin. apply list_elem_of_fmap.
    exists (instanceId, entry). split; [done|].
    by apply elem_of_map_to_list.
  - apply NoDup_fst_map_to_list.
  - intros key entry Hin. by apply elem_of_map_to_list.
Qed.

(** C9. When the [rangeMarkersConfigChanged] event fires (on a config whose
    grid layers are of their declared types), every grid layer of the
    config has its stored settings overwritten: [rangeMarkerVisible] is
    true, [rangeMarkerFollowCameraNudge] is [[0, 0]] and
    [rangeMarkerFollowCamera] is the flag of the event, whatever they were
    before; the other keys of the entry keep their values. *)
Theorem rangeMarkersConfigChanged_overwrites
    (rangeMarkersConfig : RangeMarkersConfig) (st : State)
    (instanceId : string) (entry : LayerEntry) :
  wellTypedLayers (layers st) = true ->
  layers st !! instanceId = Some entry ->
  isGridLayer entry = true ->
  let st' := handleRangeMarkersConfigChanged rangeMarkersConfig st in
  exists entry' : LayerEntry,
    layers st' !! instanceId = Some entry' /\
    entry' !! "rangeMarkerVisible" = Some (VBool true) /\
    entry' !! "rangeMarkerFollowCameraNudge" = Some (VVec2 (0, 0)%Q) /\
    entry' !! "rangeMarkerFollowCamera"
    = Some (VBool (followCamera rangeMarkersConfig)) /\
    (forall key : string,
       key <> "rangeMarkerVisible" ->
       key <> "rangeMarkerFollowCameraNudge" ->
       key <> "rangeMarkerFollowCamera" ->
       entry' !! key = entry !! key).
Proof.
  intros _ Hentry Hgrid st'.
  exists (withRangeMarkersConfig rangeMarkersConfig entry).
  split.
  - unfold st'. rewrite handleRangeMarkersConfigChanged_layers.
    by rewrite lookup_fmap, Hentry; simpl; rewrite Hgrid.
  - unfold withRangeMarkersConfig.
    split; [by simplify_map_eq|]. split; [by simplify_map_eq|].
    split; [by simplify_map_eq|].
    intros key Hvisible Hnudge Hfollow. by rewrite !lookup_insert_ne.
Qed.

(** *** Further properties of the two generators *)

(** The loop entered at [i] runs its body on [i], [i + 1], ... up to the
    integer part of the bound, whatever the bound. *)
Lemma for_le_floor {A : Type} (bound : Q) (body : Z -> list A -> list A)
    (n : nat) :
  forall (i : Z) (acc : list A),
    i = Qfloor bound + 1 - Z.of_nat n ->
    for_le bound body i acc
    = foldl (fun acc k => body k acc) acc (seqZ i (Z.of_nat n)).
Proof.
  induction n as [|n IH]; intros i acc Hi.
  - rewrite for_le_stop; [reflexivity|].
    destruct (Qle_bool (inject_Z i) bound) eqn:E; [|reflexivity].
    apply Qle_bool_iff in E. exfalso.
    pose proof (Qlt_floor bound) as Hlt.
    replace (Qfloor bound + 1) with i in Hlt by lia.
    exact (Qlt_not_le _ _ Hlt E).
  - rewrite for_le_step.
    + rewrite seqZ_cons by lia. simpl.
      rewrite IH by lia. do 2 f_equal. lia.
    + apply Qle_bool_iff.
      apply Qle_trans with (inject_Z (Qfloor bound)); [|apply Qfloor_le].
      rewrite <- Zle_Qle. lia.
Qed.

Lemma for_le_push_floor {A : Type} (bound : Q) (chunk : Z -> list A) :
  for_le bound (fun k acc => acc ++ chunk k) 0 []
  = mjoin (chunk <$> seqZ 0 (Qfloor bound + 1)).
Proof.
  destruct (Z_lt_le_dec (Qfloor bound + 1) 0) as [Hneg|Hpos].
  - rewrite seqZ_nil by lia. simpl. apply for_le_stop.
    destruct (Qle_bool (inject_Z 0) bound) eqn:E; [|reflexivity].
    apply Qle_bool_iff in E. apply Qfloor_resp_le in E.
    rewrite Qfloor_Z in E. lia.
  - rewrite (for_le_floor bound _ (Z.to_nat (Qfloor bound + 1))) by lia.
    rewrite foldl_push. simpl. by rewrite Z2Nat.id by lia.
Qed.

(** X1. Both generators run one turn for each integer from 0 up to the
    division count, whatever number the count is: the line list has four
    points and the shown range markers two labels for each of the
    [floor D + 1] turns, and none at all when the count is below 0. *)
Theorem generators_turns (settings : LayerSettingsGrid) :
  let turns := Z.to_nat (Qfloor (gridDivisions settings) + 1) in
  length (points (createLineList settings)) = (4 * turns)%nat /\
  length (texts (createTexts settings))
  = (if rangeMarkerVisible settings then 2 * turns else 0)%nat /\
  ((gridDivisions settings < 0)%Q ->
   points (createLineList settings) = [] /\
   texts (createTexts settings) = []).
Proof.
  intros turns.
  assert (length (points (createLineList settings)) = (4 * turns)%nat)
    as Hpoints.
  { unfold createLineList. cbn [points].
    rewrite lineListBody_push, for_le_push_floor, length_join.
    rewrite (sum_list_fmap_same 4).
    - rewrite length_fmap, length_seqZ. unfold turns. lia.
    - apply Forall_fmap, Forall_forall. by intros. }
  assert (length (texts (createTexts settings))
          = (if rangeMarkerVisible settings then 2 * turns else 0)%nat)
    as Htexts.
  { unfold createTexts. cbn [texts].
    destruct (rangeMarkerVisible settings); [|done].
    rewrite textsBody_push, for_le_push_floor, length_join.
    rewrite (sum_list_fmap_same 2).
    - rewrite length_fmap, length_seqZ. unfold turns. lia.
    - apply Forall_fmap, Forall_forall. by intros. }
  split; [done|]. split; [done|].
  intros Hneg.
  assert (turns = 0%nat) as Hnone.
  { unfold turns.
    assert (Qfloor (gridDivisions settings) < 0); [|lia].
    apply Z.nle_gt. intros Hfloor.
    apply (Qlt_not_le _ _ Hneg).
    apply Qle_trans with (inject_Z (Qfloor (gridDivisions settings)));
      [|apply Qfloor_le].
    change 0%Q with (inject_Z 0). by rewrite <- Zle_Qle. }
  rewrite Hnone in Hpoints, Htexts.
  split.
  - by apply nil_length_inv.
  - apply nil_length_inv. rewrite Htexts.
    by destruct (rangeMarkerVisible settings).
Qed.

(** X2. Every range-marker label is a billboard of the configured font
    size and colour, on the ground plane and not rotated; it sits either on
    the row of x-axis labels, at [y = -position[1] - gridPosition[1]], or on
    the column of y-axis labels, at [x = position[0] - gridPosition[0]]. *)
Theorem createTexts_label_layout (settings : LayerSettingsGrid)
    (label : TextPrimitive) :
  label ∈ texts (createTexts settings) ->
  billboard label = true /\
  scale_invariant label = true /\
  font_size label = rangeMarkerFontSize settings /\
  text_color label
  = stringToRgba (mkColor 1 1 1 1) (rangeMarkerFontColor settings) /\
  orientation (text_pose label) = mkQuaternion 0 0 0 1 /\
  z (position (text_pose label)) = 0%Q /\
  (y (position (text_pose label))
   = (- (rangeMarkerPosition settings).2 - (gridPosition settings).1.2)%Q \/
   x (position (text_pose label))
   = ((rangeMarkerPosition settings).1 - (gridPosition settings).1.1)%Q).
Proof.
  unfold createTexts. cbn [texts].
  destruct (rangeMarkerVisible settings); [|by intros ?%not_elem_of_nil].
  rewrite textsBody_push, for_le_push_floor.
  intros (chunk & Hlabel & Hchunk)%list_elem_of_join.
  apply list_elem_of_fmap in Hchunk as (i & -> & _).
  unfold textsBody in Hlabel. simpl in Hlabel.
  rewrite !elem_of_cons in Hlabel.
  destruct Hlabel as [->|[->|Hlabel]]; [| |by apply not_elem_of_nil in Hlabel];
    simpl; repeat split; auto.
Qed.

(** *** Settings entries *)

(** The entry written for a settings record is of the declared types and
    is read back as that record, with or without an [order] key. *)
Lemma mergeSettings_entryOfSettings (config : LayerSettingsGrid) (order : Q) :
  wellTypedEntry (entryOfSettings config) = true /\
  mergeSettings (entryOfSettings config) = config /\
  mergeSettings (<["order" := VNum order]> (entryOfSettings config)) = config /\
  mergeSettings ∅ = DEFAULT_SETTINGS.
Proof.
  destruct config as [? ? ? ? ? [frame|] ? ? ? ? ? ? ? ? ? ? ? ?];
    repeat split; reflexivity.
Qed.




(** *** The update path and the other instances *)

Lemma obtainRenderable_others (instanceId other : string)
    (newSettings : LayerSettingsGrid) (st : State) :
  other <> instanceId ->
  let found := obtainRenderable instanceId newSettings st in
  renderables found.2 !! other = renderables st !! other /\
  (other ∈ children found.2 <-> other ∈ children st).
Proof.
  intros Hother. simpl. unfold obtainRenderable.
  destruct (renderables st !! instanceId); [done|].
  simpl. rewrite lookup_insert_ne by done. split; [done|].
  rewrite elem_of_app, list_elem_of_singleton.
  split; [by intros [?|?]|by left].
Qed.

Lemma updateGrid_other (instanceId other : string)
    (settings : option LayerEntry) (st : State) :
  other <> instanceId ->
  renderables (updateGrid instanceId settings st) !! other
  = renderables st !! other /\
  (other ∈ children (updateGrid instanceId settings st)
   <-> other ∈ children st).
Proof.
  intros Hother. unfold updateGrid. destruct settings as [entry|].
  - destruct (obtainRenderable_others instanceId other (mergeSettings entry)
                st Hother) as [Hkept Hscene].
    destruct (obtainRenderable instanceId (mergeSettings entry) st)
      as [renderable st1].
    cbn [renderables children fst snd] in *.
    by rewrite lookup_insert_ne.
  - destruct (renderables st !! instanceId); [|done].
    cbn [renderables children]. rewrite lookup_delete_ne by done.
    split; [done|]. rewrite list_elem_of_filter.
    split; [by intros [_ ?]|done].
Qed.

(** X4. A call of the update path for one instance id, with settings or
    to delete, leaves every other instance alone: its renderable is the
    same object with the same contents, and it is in the scene exactly if
    it was; the config and the camera are not written. *)
Theorem updateGrid_leaves_others (instanceId other : string)
    (settings : option LayerEntry) (st : State) :
  other <> instanceId ->
  renderables (updateGrid instanceId settings st) !! other
  = renderables st !! other /\
  (other ∈ children (updateGrid instanceId settings st)
   <-> other ∈ children st) /\
  layers (updateGrid instanceId settings st) = layers st /\
  cameraState (updateGrid instanceId settings st) = cameraState st.
Proof.
  intros Hother.
  destruct (updateGrid_other instanceId other settings st Hother) as [Hkept Hscene].
  destruct (updateGrid_renderer instanceId settings st) as (Hlayers & Hcamera & _).
  done.
Qed.

(** What [#updateGrid] does to the scene when it is given settings. *)
Lemma updateGrid_children (instanceId : string) (entry : LayerEntry)
    (st : State) :
  children (updateGrid instanceId (Some entry) st)
  = match renderables st !! instanceId with
    | Some _ => children st
    | None => children st ++ [instanceId]
    end.
Proof.
  unfold updateGrid, obtainRenderable.
  by destruct (renderables st !! instanceId).
Qed.

Lemma updateGrid_trace_create (instanceId : string) (entry : LayerEntry)
    (st : State) :
  renderables st !! instanceId = None ->
  exists poses : list Effect,
    trace (updateGrid instanceId (Some entry) st) = trace st ++ poses /\
    Forall (fun effect =>
              effect = PoseComputed instanceId
                         (gridPosition (mergeSettings entry))
                         (gridRotation (mergeSettings entry))) poses.
Proof.
  intros Habsent. unfold updateGrid, obtainRenderable. rewrite Habsent.
  cbn [createRenderable trace fst snd].
  match goal with
  | |- context [followCameraSettings ?st0 _] =>
      destruct (followCameraSettings_grid st0 (mergeSettings entry))
        as (-> & -> & _)
  end.
  match goal with
  | |- context [if ?c then _ else _] => destruct c
  end.
  - eexists [_; _]. rewrite <- app_assoc. split; [reflexivity|].
    by repeat constructor.
  - eexists [_]. split; [reflexivity|]. by repeat constructor.
Qed.

Lemma updateGrid_created (instanceId : string) (entry : LayerEntry)
    (st : State) :
  renderables st !! instanceId = None ->
  renderables (updateGrid instanceId (Some entry) st) !! instanceId
  = Some (createdRenderable st instanceId entry).
Proof.
  intros Habsent. rewrite updateGrid_settings_lookup.
  unfold obtainRenderable, createdRenderable. rewrite Habsent.
  cbn [createRenderable fst snd name receiveTime messageTime
       userData_frameId userData_pose settingsPath userData_settings
       userData_lineList lineList_name].
  match goal with
  | |- context [followCameraSettings ?st0 _] =>
      rewrite (followCameraSettings_ext st st0) by done
  end.
  destruct (followCameraSettings_grid st (mergeSettings entry))
    as (Hposition & Hrotation & _).
  rewrite <- Hposition, <- Hrotation.
  by destruct (poseChanged (followCameraSettings st (mergeSettings entry))
                 (mergeSettings entry)).
Qed.

(** X5. The first settings seen for an instance id create its renderable:
    it is added to the scene, after the renderables already there, and
    stored under the id with its settings path, the merged settings, the
    geometry of both generators, and the pose of its grid position and
    rotation, whatever the approximate comparison answers. *)
Theorem updateGrid_creates (instanceId : string) (entry : LayerEntry)
    (st : State) :
  wellTypedEntry entry = true ->
  renderables st !! instanceId = None ->
  let st' := updateGrid instanceId (Some entry) st in
  let newSettings := followCameraSettings st (mergeSettings entry) in
  children st' = children st ++ [instanceId] /\
  renderables st' !! instanceId
  = Some {|
      name := instanceId;
      receiveTime := 0;
      messageTime := 0;
      userData_frameId := "";
      userData_pose :=
        xyzrpyToPose (gridPosition newSettings) (gridRotation newSettings);
      settingsPath := ["layers"; instanceId];
      userData_settings := newSettings;
      userData_lineList :=
        mkRenderableLineList (instanceId ++ ":LINE_LIST")%string
          (createLineList newSettings);
      userData_texts :=
        mkRenderableTexts (TEXTS_topic instanceId) (createTexts newSettings) |}.
Proof.
  intros _ Habsent st' newSettings. split.
  - unfold st'. by rewrite updateGrid_children, Habsent.
  - unfold st'. by rewrite updateGrid_created.
Qed.

Lemma disposals_app (instanceId : string) (part : SubObject)
    (before after : list Effect) :
  disposals instanceId part (before ++ after)
  = (disposals instanceId part before + disposals instanceId part after)%nat.
Proof. unfold disposals. by rewrite List.filter_app, length_app. Qed.

Lemma disposals_poses (instanceId : string) (part : SubObject)
    (poses : list Effect) (poseOf : string) (position rotation : vec3) :
  Forall (fun effect => effect = PoseComputed poseOf position rotation) poses ->
  disposals instanceId part poses = 0%nat.
Proof.
  unfold disposals. induction 1 as [|effect poses -> _ IH]; [done|].
  simpl. by destruct part.
Qed.

Lemma filter_others (instanceId : string) (ids : list string) :
  instanceId ∉ ids -> filter (fun child => child <> instanceId) ids = ids.
Proof.
  induction ids as [|child ids IH]; intros Hout; [done|].
  apply not_elem_of_cons in Hout as [Hne Hout].
  rewrite filter_cons_True by done. by rewrite IH.
Qed.

(** X6. Creating an instance and then deleting it undoes the creation:
    the mapping and the scene are as before, and of the instance each of
    the two sub-objects has been disposed exactly once more. *)
Theorem updateGrid_create_then_delete (instanceId : string)
    (entry : LayerEntry) (st : State) :
  wellTypedEntry entry = true ->
  renderables st !! instanceId = None ->
  instanceId ∉ children st ->
  let st' := updateGrid instanceId None
               (updateGrid instanceId (Some entry) st) in
  renderables st' = renderables st /\
  children st' = children st /\
  layers st' = layers st /\
  disposals instanceId LineListPart (trace st')
  = S (disposals instanceId LineListPart (trace st)) /\
  disposals instanceId TextsPart (trace st')
  = S (disposals instanceId TextsPart (trace st)).
Proof.
  intros _ Habsent Hscene st'. unfold st'.
  destruct (updateGrid_result instanceId entry st)
    as (renderable & Hstored & _).
  assert (renderables (updateGrid instanceId (Some entry) st)
          = <[instanceId := renderable]> (renderables st)) as Hmap.
  { apply map_eq. intros other.
    destruct (decide (other = instanceId)) as [->|Hother].
    - by rewrite lookup_insert_eq.
    - rewrite lookup_insert_ne by done.
      by apply updateGrid_other. }
  assert (children (updateGrid instanceId (Some entry) st)
          = children st ++ [instanceId]) as Hchildren.
  { by rewrite updateGrid_children, Habsent. }
  destruct (updateGrid_trace_create instanceId entry st Habsent)
    as (poses & Htrace & Hposes).
  destruct (updateGrid_renderer instanceId (Some entry) st) as [Hlayers _].
  remember (updateGrid instanceId (Some entry) st) as st1 eqn:Hst1.
  unfold updateGrid. rewrite Hstored.
  cbn [renderables children layers trace].
  split; [|split; [|split; [|split]]].
  - rewrite Hmap, delete_insert_eq. by apply delete_id.
  - rewrite Hchildren, filter_app.
    rewrite filter_others by done.
    rewrite filter_cons_False by (by intros ?).
    by rewrite filter_nil, app_nil_r.
  - done.
  - rewrite Htrace, !disposals_app.
    rewrite (disposals_poses _ _ _ _ _ _ Hposes).
    unfold disposals. simpl. rewrite String.eqb_refl. simpl. lia.
  - rewrite Htrace, !disposals_app.
    rewrite (disposals_poses _ _ _ _ _ _ Hposes).
    unfold disposals. simpl. rewrite String.eqb_refl. simpl. lia.
Qed.

(** *** Invariants under the handlers *)

Lemma obtainRenderable_cases (instanceId : string)
    (newSettings : LayerSettingsGrid) (st : State) :
  let found := obtainRenderable instanceId newSettings st in
  renderables st !! instanceId = Some found.1 \/
  (renderables st !! instanceId = None /\
   name found.1 = instanceId /\
   settingsPath found.1 = ["layers"; instanceId] /\
   lineList_name (userData_lineList found.1)
   = (instanceId ++ ":LINE_LIST")%string).
Proof.
  simpl. unfold obtainRenderable.
  destruct (renderables st !! instanceId); [by left|by right].
Qed.

Lemma updateGrid_sceneConsistent (instanceId : string)
    (settings : option LayerEntry) (st : State) :
  sceneConsistent st -> sceneConsistent (updateGrid instanceId settings st).
Proof.
  intros [Hnodup Hscene]. split.
  - destruct settings as [entry|].
    + rewrite updateGrid_children.
      destruct (renderables st !! instanceId) eqn:Hstored; [done|].
      apply NoDup_app. split; [done|]. split; [|apply NoDup_singleton].
      intros child Hchild ->%list_elem_of_singleton.
      apply Hscene in Hchild. rewrite Hstored in Hchild.
      by destruct Hchild.
    + unfold updateGrid. destruct (renderables st !! instanceId); [|done].
      cbn [children]. by apply NoDup_filter.
  - intros other. destruct (decide (other = instanceId)) as [->|Hother].
    + destruct settings as [entry|].
      * destruct (updateGrid_result instanceId entry st)
          as (renderable & -> & _).
        rewrite updateGrid_children. split; [by eexists|]. intros _.
        destruct (renderables st !! instanceId) eqn:Hstored.
        -- apply Hscene. by rewrite Hstored.
        -- rewrite elem_of_app, list_elem_of_singleton. by right.
      * unfold updateGrid.
        destruct (renderables st !! instanceId) eqn:Hstored.
        -- cbn [children renderables].
           rewrite list_elem_of_filter, lookup_delete_eq.
           split; [by intros [? _]|by intros [? ?]].
        -- rewrite Hscene, Hstored. done.
    + destruct (updateGrid_other instanceId other settings st Hother)
        as [-> ->].
      apply Hscene.
Qed.

Lemma updateGrid_geometryConsistent (instanceId : string)
    (settings : option LayerEntry) (st : State) :
  geometryConsistent st ->
  geometryConsistent (updateGrid instanceId settings st).
Proof.
  intros Hgeometry other renderable Hstored.
  destruct (decide (other = instanceId)) as [->|Hother].
  - destruct settings as [entry|].
    + rewrite updateGrid_settings_lookup in Hstored.
      injection Hstored as <-.
      cbn [name settingsPath userData_lineList lineList_name lineList_marker
           userData_settings userData_texts].
      destruct (obtainRenderable_cases instanceId (mergeSettings entry) st)
        as [Hfound|(_ & Hname & Hpath & Hline)].
      * destruct (Hgeometry _ _ Hfound) as (Hname & Hpath & Hline & _).
        by rewrite Hname, Hpath, Hline.
      * by rewrite Hname, Hpath, Hline.
    + unfold updateGrid in Hstored.
      destruct (renderables st !! instanceId) eqn:Hold.
      * cbn [renderables] in Hstored.
        by rewrite lookup_delete_eq in Hstored.
      * by rewrite Hold in Hstored.
  - destruct (updateGrid_other instanceId other settings st Hother)
      as [Hkept _].
    rewrite Hkept in Hstored. by apply Hgeometry.
Qed.

(** Every handler keeps a property of the state that the update path
    keeps and that reads the renderables and the scene only. *)
Lemma handlers_keep (P : State -> Prop) :
  (forall instanceId settings st, P st -> P (updateGrid instanceId settings st)) ->
  (forall st st',
     renderables st' = renderables st -> children st' = children st ->
     P st -> P st') ->
  forall st : State,
    P st ->
    P (settingsNodes st).2 /\
    P (updateSettingsTree st) /\
    (forall path value, P (saveSetting path value st)) /\
    (forall action, P (handleSettingsAction action st)) /\
    (forall rangeMarkersConfig,
       P (handleRangeMarkersConfigChanged rangeMarkersConfig st)) /\
    P (handleCameraStateChanged st) /\
    P (loadExistingLayers st) /\
    (forall instanceId, P (handleAddGrid instanceId st)) /\
    P (handleTransformTreeUpdated st) /\
    P (removeAllRenderables st).
Proof.
  intros Hupdate Hreads.
  assert (forall st, P st -> P (settingsNodes st).2) as Hnodes.
  { intros st. unfold settingsNodes.
    change st with (([] : list SettingsTreeEntry), st).2 at 1.
    generalize (([] : list SettingsTreeEntry), st) as acc.
    generalize (map_to_list (layers st)) as items.
    induction items as [|[instanceId layerConfig] items IH];
      intros [entries st0] Hacc; [done|].
    cbn [foldl]. apply IH. unfold settingsNodesStep.
    destruct (isGridLayer layerConfig); cbn [negb snd]; [|done].
    destruct (renderables st0 !! instanceId); [done|]. by apply Hupdate. }
  assert (forall st, P st -> P (updateSettingsTree st)) as Htree.
  { intros st Hst. specialize (Hnodes st Hst).
    unfold updateSettingsTree. destruct (settingsNodes st) as [nodes st0].
    by apply (Hreads st0). }
  assert (forall change st, P st -> P (updateConfig change st)) as Hconfig.
  { intros change st. by apply Hreads. }
  assert (forall path value st, P st -> P (saveSetting path value st)) as Hsave.
  { intros path value st Hst. unfold saveSetting. by apply Htree, Hconfig. }
  assert (forall step : State -> string * LayerEntry -> State,
            (forall st item, P st -> P (step st item)) ->
            forall items st, P st -> P (foldl step st items)) as Hfold.
  { intros step Hstep items.
    induction items as [|item items IH]; intros st Hst; [done|].
    cbn [foldl]. by apply IH, Hstep. }
  assert (forall st item, P st -> P (gridLayerStep st item)) as Hgrid.
  { intros st [instanceId entry] Hst. unfold gridLayerStep.
    destruct (isGridLayer entry); [by apply Hupdate|done]. }
  intros st Hst.
  split; [by apply Hnodes|]. split; [by apply Htree|].
  split; [by intros; apply Hsave|]. split.
  { intros [path value|path id]; unfold handleSettingsAction.
    - case_decide; [done|].
      destruct (path !! 1%nat); [|by apply Hsave].
      by apply Hupdate, Hsave.
    - case_decide; [|done].
      destruct (path !! 1%nat); [|done].
      by apply Htree, Hupdate, Hconfig. }
  split.
  { intros rangeMarkersConfig. unfold handleRangeMarkersConfigChanged.
    apply Hfold; [|done]. intros st0 [instanceId entry] Hst0.
    unfold rangeMarkersStep. destruct (isGridLayer entry); cbn [negb]; [|done].
    by apply Hupdate, Htree, Hsave, Hsave, Hsave. }
  split; [by apply Hfold|]. split; [by apply Hfold|].
  split.
  { intros instanceId. unfold handleAddGrid.
    by apply Htree, Hupdate, Hconfig. }
  split; [by apply Htree|done].
Qed.

Lemma startFrame_lookup (renderFrameId instanceId : string) (st : State) :
  renderables (startFrame renderFrameId st) !! instanceId
  = (fun renderable => {|
       name := name renderable;
       receiveTime := receiveTime renderable;
       messageTime := messageTime renderable;
       userData_frameId :=
         default renderFrameId (frameId (userData_settings renderable));
       userData_pose := userData_pose renderable;
       settingsPath := settingsPath renderable;
       userData_settings := userData_settings renderable;
       userData_lineList := userData_lineList renderable;
       userData_texts := userData_texts renderable |})
    <$> renderables st !! instanceId.
Proof. unfold startFrame. cbn [renderables]. by rewrite lookup_fmap. Qed.

(** X7. The scene and the mapping from instance ids to renderables agree
    after every handler: if each stored renderable is in the scene exactly
    once and the scene holds nothing else, the same is true after the
    update path, the building of the settings nodes, a settings action, any
    of the three renderer events, the adding of a grid, a frame start and
    [removeAllRenderables]. Config entries are of their declared types. *)
Theorem scene_invariant (st : State) :
  sceneConsistent st ->
  wellTypedLayers (layers st) = true ->
  (forall instanceId settings,
     from_option wellTypedEntry true settings = true ->
     sceneConsistent (updateGrid instanceId settings st)) /\
  sceneConsistent (settingsNodes st).2 /\
  (forall action,
     match action with
     | Update path value =>
         wellTypedLayers (setPath path value (layers st)) = true
     | PerformNodeAction _ _ => True
     end ->
     sceneConsistent (handleSettingsAction action st)) /\
  (forall rangeMarkersConfig,
     sceneConsistent (handleRangeMarkersConfigChanged rangeMarkersConfig st)) /\
  sceneConsistent (handleCameraStateChanged st) /\
  sceneConsistent (loadExistingLayers st) /\
  (forall instanceId, sceneConsistent (handleAddGrid instanceId st)) /\
  sceneConsistent (handleTransformTreeUpdated st) /\
  (forall renderFrameId, sceneConsistent (startFrame renderFrameId st)) /\
  sceneConsistent (removeAllRenderables st).
Proof.
  intros Hscene _.
  destruct (handlers_keep sceneConsistent) with (st := st)
    as (Hnodes & _ & _ & Haction & Hmarkers & Hcamera & Hload & Hadd
        & Htransform & Hremove); [| |done|].
  { intros. by apply updateGrid_sceneConsistent. }
  { intros st0 st' Hrenderables Hchildren [Hnodup Hagree].
    split; [by rewrite Hchildren|].
    intros instanceId. rewrite Hchildren, Hrenderables. apply Hagree. }
  split; [by intros; apply updateGrid_sceneConsistent|].
  split; [done|]. split; [by intros; apply Haction|].
  split; [done|]. split; [done|]. split; [done|]. split; [done|].
  split; [done|]. split; [|done].
  intros renderFrameId. destruct Hscene as [Hnodup Hagree].
  split; [done|]. intros instanceId.
  rewrite startFrame_lookup, fmap_is_Some. apply Hagree.
Qed.

(** X8. Each stored renderable shows its stored settings after every
    handler: if for every renderable the line list is the output of
    [createLineList] and the labels are the output of [createTexts] on the
    settings stored with it (and its name, settings path and sub-object
    names are those of its instance id), the same is true after the update
    path, the building of the settings nodes, a settings action, any of the
    three renderer events, the adding of a grid, and a frame start. Config
    entries are of their declared types. *)
Theorem geometry_invariant (st : State) :
  geometryConsistent st ->
  wellTypedLayers (layers st) = true ->
  (forall instanceId settings,
     from_option wellTypedEntry true settings = true ->
     geometryConsistent (updateGrid instanceId settings st)) /\
  geometryConsistent (settingsNodes st).2 /\
  (forall action,
     match action with
     | Update path value =>
         wellTypedLayers (setPath path value (layers st)) = true
     | PerformNodeAction _ _ => True
     end ->
     geometryConsistent (handleSettingsAction action st)) /\
  (forall rangeMarkersConfig,
     geometryConsistent
       (handleRangeMarkersConfigChanged rangeMarkersConfig st)) /\
  geometryConsistent (handleCameraStateChanged st) /\
  geometryConsistent (loadExistingLayers st) /\
  (forall instanceId, geometryConsistent (handleAddGrid instanceId st)) /\
  geometryConsistent (handleTransformTreeUpdated st) /\
  (forall renderFrameId, geometryConsistent (startFrame renderFrameId st)).
Proof.
  intros Hgeometry _.
  destruct (handlers_keep geometryConsistent) with (st := st)
    as (Hnodes & _ & _ & Haction & Hmarkers & Hcamera & Hload & Hadd
        & Htransform & _); [| |done|].
  { intros. by apply updateGrid_geometryConsistent. }
  { intros st0 st' Hrenderables _ Hold instanceId renderable.
    rewrite Hrenderables. apply Hold. }
  split; [by intros; apply updateGrid_geometryConsistent|].
  split; [done|]. split; [by intros; apply Haction|].
  split; [done|]. split; [done|]. split; [done|]. split; [done|].
  split; [done|].
  intros renderFrameId instanceId renderable.
  rewrite startFrame_lookup.
  destruct (renderables st !! instanceId) as [old|] eqn:Hold; [|done].
  cbn [fmap option_fmap option_map]. intros [= <-].
  cbn [name settingsPath userData_lineList userData_settings userData_texts].
  by apply Hgeometry.
Qed.

(** X9. A frame start resolves the frame of every renderable: the frame
    its settings name, or else the render frame of this call. Nothing else
    about a renderable changes, no renderable appears or goes, and of two
    frame starts in a row only the second one shows. *)
Theorem startFrame_resolves (renderFrameId : string) (st : State)
    (instanceId : string) (renderable : GridRenderable) :
  renderables st !! instanceId = Some renderable ->
  (exists resolved : GridRenderable,
     renderables (startFrame renderFrameId st) !! instanceId = Some resolved /\
     userData_frameId resolved
     = match frameId (userData_settings renderable) with
       | Some configured => configured
       | None => renderFrameId
       end /\
     userData_settings resolved = userData_settings renderable /\
     userData_pose resolved = userData_pose renderable /\
     userData_lineList resolved = userData_lineList renderable /\
     userData_texts resolved = userData_texts renderable) /\
  dom (renderables (startFrame renderFrameId st)) = dom (renderables st) /\
  (forall earlier : string,
     startFrame renderFrameId (startFrame earlier st)
     = startFrame renderFrameId st).
Proof.
  intros Hstored. split; [|split].
  - rewrite startFrame_lookup, Hstored. eexists. split; [reflexivity|].
    cbn [userData_frameId userData_settings userData_pose userData_lineList
         userData_texts].
    by destruct (frameId (userData_settings renderable)).
  - unfold startFrame. cbn [renderables]. by rewrite dom_fmap_L.
  - intros earlier. unfold startFrame.
    cbn [layers renderables children trace cameraState drawingBufferSize
         coordinateFrameList settingsTree].
    f_equal. by rewrite <- map_fmap_compose.
Qed.

(** *** settingsNodes *)

Lemma sameView_refl (st : State) : sameView st st.
Proof. done. Qed.

Lemma sameView_trans (st st' st'' : State) :
  sameView st st' -> sameView st' st'' -> sameView st st''.
Proof.
  intros (Hc & Hs & Hf) (Hc' & Hs' & Hf').
  repeat split; congruence.
Qed.

Lemma updateGrid_sameView (instanceId : string) (settings : option LayerEntry)
    (st : State) :
  sameView st (updateGrid instanceId settings st).
Proof.
  destruct (updateGrid_renderer instanceId settings st)
    as (_ & Hcamera & Hsize & Hframes & _).
  done.
Qed.

Lemma followCameraSettings_sameView (st st' : State)
    (settings : LayerSettingsGrid) :
  sameView st st' ->
  followCameraSettings st' settings = followCameraSettings st settings.
Proof. intros (Hcamera & Hsize & _). by apply followCameraSettings_ext. Qed.

Lemma createdRenderable_sameView (st st' : State) (instanceId : string)
    (entry : LayerEntry) :
  sameView st st' ->
  createdRenderable st' instanceId entry = createdRenderable st instanceId entry.
Proof.
  intros Hview. unfold createdRenderable.
  by rewrite (followCameraSettings_sameView st st').
Qed.

(** The loop of [settingsNodes], item by item. *)
Lemma settingsNodes_fold (items : list (string * LayerEntry)) :
  forall acc : list SettingsTreeEntry * State,
    let result := foldl settingsNodesStep acc items in
    sameView acc.2 result.2 /\
    result.1
    = acc.1 ++ (settingsNode (coordinateFrameList acc.2)
                <$> List.filter (fun item => isGridLayer item.2) items) /\
    forall instanceId : string,
      renderables result.2 !! instanceId
      = match renderables acc.2 !! instanceId with
        | Some renderable => Some renderable
        | None =>
            createdRenderable acc.2 instanceId
            <$> (list_to_map
                   (List.filter (fun item => isGridLayer item.2) items)
                 : gmap string LayerEntry) !! instanceId
        end.
Proof.
  induction items as [|[key entry] items IH]; intros [entries st].
  - cbn [foldl List.filter fmap list_fmap list_to_map foldr fst snd].
    split; [done|]. split; [by rewrite app_nil_r|].
    intros instanceId. rewrite lookup_empty.
    by destruct (renderables st !! instanceId).
  - cbn [foldl List.filter fst snd]. cbv zeta.
    destruct (IH (settingsNodesStep (entries, st) (key, entry)))
      as (Hview & Hentries & Hrenderables).
    unfold settingsNodesStep in Hview, Hentries, Hrenderables |- *.
    destruct (isGridLayer entry) eqn:Hgrid; cbn [negb fst snd] in *.
    + destruct (renderables st !! key) as [existing|] eqn:Hexisting.
      * split; [done|]. split.
        { rewrite Hentries, <- app_assoc. by rewrite fmap_cons. }
        intros instanceId. rewrite Hrenderables.
        destruct (renderables st !! instanceId) eqn:Hstored; [done|].
        cbn [list_to_map foldr fst snd].
        rewrite lookup_insert_ne; [done|]. by intros ->; congruence.
      * pose proof (updateGrid_sameView key (Some entry) st) as Hstep.
        split; [by eapply sameView_trans|]. split.
        { rewrite Hentries, <- app_assoc, fmap_cons.
          by destruct Hstep as (_ & _ & ->). }
        intros instanceId. rewrite Hrenderables.
        cbn [list_to_map foldr fst snd].
        destruct (decide (instanceId = key)) as [->|Hother].
        -- rewrite updateGrid_created, Hexisting by done.
           by rewrite lookup_insert_eq.
        -- destruct (updateGrid_other key instanceId (Some entry) st Hother)
             as [-> _].
           rewrite lookup_insert_ne by done.
           destruct (renderables st !! instanceId); [done|].
           destruct (_ !! instanceId); [|done]. cbn.
           by rewrite (createdRenderable_sameView st).
    + split; [done|]. split; [done|].
      intros instanceId. by rewrite Hrenderables.
Qed.

Lemma gridItems_lookup (layers : gmap string LayerEntry) (instanceId : string) :
  (list_to_map (List.filter (fun item : string * LayerEntry =>
                               isGridLayer item.2) (map_to_list layers))
   : gmap string LayerEntry) !! instanceId
  = match layers !! instanceId with
    | Some entry => if isGridLayer entry then Some entry else None
    | None => None
    end.
Proof.
  destruct (list_to_map _ !! instanceId) as [entry|] eqn:Hfound.
  - apply elem_of_list_to_map_2 in Hfound.
    apply list_elem_of_In, filter_In in Hfound as [Hin Hgrid].
    apply list_elem_of_In, elem_of_map_to_list in Hin.
    cbn [snd] in Hgrid. by rewrite Hin, Hgrid.
  - apply not_elem_of_list_to_map_2 in Hfound.
    destruct (layers !! instanceId) as [entry|] eqn:Hentry; [|done].
    destruct (isGridLayer entry) eqn:Hgrid; [|done].
    exfalso. apply Hfound. apply list_elem_of_fmap.
    exists (instanceId, entry). split; [done|].
    apply list_elem_of_In, filter_In. split; [|done].
    by apply list_elem_of_In, elem_of_map_to_list.
Qed.

Lemma settingsNodes_spec (st : State) :
  sameView st (settingsNodes st).2 /\
  (settingsNodes st).1
  = settingsNode (coordinateFrameList st)
    <$> List.filter (fun item => isGridLayer item.2) (map_to_list (layers st)) /\
  forall instanceId : string,
    renderables (settingsNodes st).2 !! instanceId
    = match renderables st !! instanceId with
      | Some renderable => Some renderable
      | None =>
          match layers st !! instanceId with
          | Some entry =>
              if isGridLayer entry
              then Some (createdRenderable st instanceId entry)
              else None
          | None => None
          end
      end.
Proof.
  unfold settingsNodes.
  destruct (settingsNodes_fold (map_to_list (layers st)) ([], st))
    as (Hview & Hentries & Hrenderables).
  cbn [fst snd] in *. split; [done|]. split; [done|].
  intros instanceId. rewrite Hrenderables, gridItems_lookup.
  destruct (renderables st !! instanceId); [done|].
  destruct (layers st !! instanceId) as [entry|]; [|done].
  by destruct (isGridLayer entry).
Qed.


(** *** The config and the renderables in step *)

Lemma synced_syncedAt (st : State) :
  synced st <-> forall instanceId, syncedAt st instanceId.
Proof. done. Qed.

Lemma syncedAt_transfer (st st' : State) (instanceId : string) :
  layers st' !! instanceId = layers st !! instanceId ->
  sameView st st' ->
  (forall renderable,
     renderables st !! instanceId = Some renderable ->
     renderables st' !! instanceId = Some renderable) ->
  syncedAt st instanceId -> syncedAt st' instanceId.
Proof.
  intros Hlayers Hview Hkept Hsynced entry Hentry Hgrid.
  rewrite Hlayers in Hentry.
  destruct (Hsynced entry Hentry Hgrid) as (renderable & Hstored & Hsettings).
  exists renderable. split; [by apply Hkept|].
  by rewrite (followCameraSettings_sameView st st').
Qed.

Lemma syncedAt_updateGrid_other (instanceId other : string)
    (settings : option LayerEntry) (st : State) :
  other <> instanceId ->
  syncedAt st other -> syncedAt (updateGrid instanceId settings st) other.
Proof.
  intros Hother. apply syncedAt_transfer.
  - by destruct (updateGrid_renderer instanceId settings st) as [-> _].
  - apply updateGrid_sameView.
  - intros renderable.
    by destruct (updateGrid_other instanceId other settings st Hother)
      as [-> _].
Qed.

Lemma syncedAt_updateGrid_self (instanceId : string)
    (settings : option LayerEntry) (st : State) :
  (forall entry,
     layers st !! instanceId = Some entry ->
     exists given, settings = Some given /\
                   mergeSettings given = mergeSettings entry) ->
  syncedAt (updateGrid instanceId settings st) instanceId.
Proof.
  intros Hgiven entry Hentry _.
  destruct (updateGrid_renderer instanceId settings st) as [Hlayers _].
  rewrite Hlayers in Hentry.
  destruct (Hgiven entry Hentry) as (given & -> & Hmerge).
  destruct (updateGrid_result instanceId given st)
    as (renderable & Hstored & Hsettings & _).
  exists renderable. split; [done|].
  rewrite Hsettings, Hmerge.
  symmetry. apply followCameraSettings_sameView, updateGrid_sameView.
Qed.

Lemma updateSettingsTree_spec (st : State) :
  sameView st (updateSettingsTree st) /\
  layers (updateSettingsTree st) = layers st /\
  children (updateSettingsTree st) = children (settingsNodes st).2 /\
  renderables (updateSettingsTree st) = renderables (settingsNodes st).2.
Proof.
  pose proof (settingsNodes_spec st) as (Hview & _).
  pose proof (settingsNodes_layers st) as Hlayers.
  unfold updateSettingsTree. by destruct (settingsNodes st).
Qed.

Lemma syncedAt_updateSettingsTree (st : State) (instanceId : string) :
  syncedAt st instanceId -> syncedAt (updateSettingsTree st) instanceId.
Proof.
  destruct (updateSettingsTree_spec st) as (Hview & Hlayers & _ & Hrenderables).
  apply syncedAt_transfer; [by rewrite Hlayers|done|].
  intros renderable Hstored. rewrite Hrenderables.
  destruct (settingsNodes_spec st) as (_ & _ & ->). by rewrite Hstored.
Qed.

Lemma syncedAt_updateConfig (change : gmap string LayerEntry -> gmap string LayerEntry)
    (st : State) (instanceId : string) :
  change (layers st) !! instanceId = layers st !! instanceId ->
  syncedAt st instanceId -> syncedAt (updateConfig change st) instanceId.
Proof. intros Hsame. by apply syncedAt_transfer. Qed.

Lemma setPath_other (path : list string) (value : Value)
    (layers : gmap string LayerEntry) (instanceId : string) :
  path !! 1%nat <> Some instanceId ->
  setPath path value layers !! instanceId = layers !! instanceId.
Proof.
  intros Hother. unfold setPath.
  destruct path as [|root [|key [|field [|]]]]; try done.
  destruct (String.eqb root "layers"); [|done].
  rewrite lookup_insert_ne; [done|]. intros ->. by apply Hother.
Qed.

Lemma syncedAt_saveSetting (path : list string) (value : Value) (st : State)
    (instanceId : string) :
  path !! 1%nat <> Some instanceId ->
  syncedAt st instanceId -> syncedAt (saveSetting path value st) instanceId.
Proof.
  intros Hother Hsynced. unfold saveSetting.
  apply syncedAt_updateSettingsTree, syncedAt_updateConfig; [|done].
  by apply setPath_other.
Qed.

Lemma gridLayer_fold_synced (items : list (string * LayerEntry)) :
  forall st : State,
    (forall instanceId entry,
       (instanceId, entry) ∈ items -> layers st !! instanceId = Some entry) ->
    layers (foldl gridLayerStep st items) = layers st /\
    sameView st (foldl gridLayerStep st items) /\
    forall instanceId,
      syncedAt st instanceId \/ instanceId ∈ items.*1 ->
      syncedAt (foldl gridLayerStep st items) instanceId.
Proof.
  induction items as [|[key entry] items IH]; intros st Hitems.
  - cbn [foldl]. split; [done|]. split; [done|].
    intros instanceId [Hsynced|Hin]; [done|by apply not_elem_of_nil in Hin].
  - cbn [foldl].
    assert (layers st !! key = Some entry) as Hkey
      by apply Hitems, list_elem_of_here.
    assert (layers (gridLayerStep st (key, entry)) = layers st) as Hlayers.
    { unfold gridLayerStep. destruct (isGridLayer entry); [|done].
      by destruct (updateGrid_renderer key (Some entry) st) as [-> _]. }
    assert (sameView st (gridLayerStep st (key, entry))) as Hview.
    { unfold gridLayerStep. destruct (isGridLayer entry); [|done].
      apply updateGrid_sameView. }
    assert (forall instanceId,
              syncedAt st instanceId \/ instanceId = key ->
              syncedAt (gridLayerStep st (key, entry)) instanceId) as Hstep.
    { intros instanceId Hcase. unfold gridLayerStep.
      destruct (isGridLayer entry) eqn:Hgrid.
      - destruct (decide (instanceId = key)) as [->|Hother].
        + apply syncedAt_updateGrid_self. intros entry' Hentry'.
          exists entry. split; [done|]. congruence.
        + destruct Hcase as [Hsynced|?]; [|done].
          by apply syncedAt_updateGrid_other.
      - destruct Hcase as [Hsynced| ->]; [done|].
        intros entry' Hentry' Hgrid'. congruence. }
    destruct (IH (gridLayerStep st (key, entry))) as (Hlayers' & Hview' & Hrest).
    { intros instanceId entry' Hin. rewrite Hlayers.
      by apply Hitems, list_elem_of_further. }
    split; [by rewrite Hlayers'|]. split; [by eapply sameView_trans|].
    intros instanceId [Hsynced|Hin].
    + apply Hrest. left. apply Hstep. by left.
    + rewrite fmap_cons in Hin. cbn [fst] in Hin.
      apply elem_of_cons in Hin as [->|Hin].
      * apply Hrest. left. apply Hstep. by right.
      * apply Hrest. by right.
Qed.

Lemma gridLayers_synced (st : State) :
  synced (foldl gridLayerStep st (map_to_list (layers st))) /\
  layers (foldl gridLayerStep st (map_to_list (layers st))) = layers st /\
  sameView st (foldl gridLayerStep st (map_to_list (layers st))).
Proof.
  destruct (gridLayer_fold_synced (map_to_list (layers st)) st)
    as (Hlayers & Hview & Hsynced).
  { intros instanceId entry. apply elem_of_map_to_list. }
  split; [|done].
  intros instanceId entry Hentry. apply Hsynced; [|done].
  right. apply list_elem_of_fmap. exists (instanceId, entry).
  split; [done|]. apply elem_of_map_to_list. by rewrite <- Hlayers.
Qed.

Lemma rangeMarkersStep_sameView (rangeMarkersConfig : RangeMarkersConfig)
    (st : State) (item : string * LayerEntry) :
  sameView st (rangeMarkersStep rangeMarkersConfig st item).
Proof.
  destruct item as [key entry]. unfold rangeMarkersStep.
  destruct (isGridLayer entry); cbn [negb]; [|done].
  unfold saveSetting.
  repeat first
    [ eapply sameView_trans; [|apply updateGrid_sameView]
    | eapply sameView_trans; [|apply updateSettingsTree_spec] ].
  done.
Qed.

Lemma rangeMarkersStep_synced (rangeMarkersConfig : RangeMarkersConfig)
    (st : State) (key : string) (entry : LayerEntry) (instanceId : string) :
  isGridLayer entry = true ->
  syncedAt st instanceId \/ instanceId = key ->
  syncedAt (rangeMarkersStep rangeMarkersConfig st (key, entry)) instanceId.
Proof.
  intros Hgrid Hcase. unfold rangeMarkersStep. rewrite Hgrid. cbn [negb].
  destruct (decide (instanceId = key)) as [->|Hother].
  - apply syncedAt_updateGrid_self. intros stored Hstored. by exists stored.
  - destruct Hcase as [Hsynced|?]; [|done].
    apply syncedAt_updateGrid_other; [done|].
    apply syncedAt_updateSettingsTree.
    repeat (apply syncedAt_saveSetting; [by intros [= ->]|]).
    done.
Qed.

Lemma rangeMarkers_fold_synced (rangeMarkersConfig : RangeMarkersConfig)
    (items : list (string * LayerEntry)) :
  NoDup items.*1 ->
  forall st : State,
    (forall instanceId entry,
       (instanceId, entry) ∈ items -> layers st !! instanceId = Some entry) ->
    sameView st (foldl (rangeMarkersStep rangeMarkersConfig) st items) /\
    forall instanceId,
      syncedAt st instanceId \/ instanceId ∈ items.*1 ->
      syncedAt (foldl (rangeMarkersStep rangeMarkersConfig) st items)
        instanceId.
Proof.
  induction items as [|[key entry] items IH]; intros Hnodup st Hitems.
  - cbn [foldl]. split; [done|].
    intros instanceId [Hsynced|Hin]; [done|by apply not_elem_of_nil in Hin].
  - cbn [foldl]. rewrite fmap_cons in Hnodup |- *. cbn [fst] in Hnodup |- *.
    apply NoDup_cons in Hnodup as [Hfresh Hnodup].
    assert (layers st !! key = Some entry) as Hkey
      by apply Hitems, list_elem_of_here.
    assert (forall instanceId,
              syncedAt st instanceId \/ instanceId = key ->
              syncedAt (rangeMarkersStep rangeMarkersConfig st (key, entry))
                instanceId) as Hstep.
    { intros instanceId Hcase.
      destruct (isGridLayer entry) eqn:Hgrid.
      - by apply rangeMarkersStep_synced.
      - unfold rangeMarkersStep. rewrite Hgrid. cbn [negb].
        destruct Hcase as [Hsynced| ->]; [done|].
        intros entry' Hentry' Hgrid'. congruence. }
    destruct (IH Hnodup (rangeMarkersStep rangeMarkersConfig st (key, entry)))
      as (Hview & Hrest).
    { intros instanceId entry' Hin. rewrite rangeMarkersStep_layers.
      assert (instanceId <> key) as Hne.
      { intros ->. apply Hfresh.
        apply list_elem_of_fmap. by exists (key, entry'). }
      destruct (isGridLayer entry).
      - rewrite lookup_insert_ne by done.
        by apply Hitems, list_elem_of_further.
      - by apply Hitems, list_elem_of_further. }
    split.
    { eapply sameView_trans; [|exact Hview].
      apply rangeMarkersStep_sameView. }
    intros instanceId [Hsynced|Hin].
    + apply Hrest. left. apply Hstep. by left.
    + apply elem_of_cons in Hin as [->|Hin].
      * apply Hrest. left. apply Hstep. by right.
      * apply Hrest. by right.
Qed.

Lemma isGridLayer_withRangeMarkersConfig
    (rangeMarkersConfig : RangeMarkersConfig) (entry : LayerEntry) :
  isGridLayer (withRangeMarkersConfig rangeMarkersConfig entry)
  = isGridLayer entry.
Proof.
  unfold isGridLayer, withRangeMarkersConfig.
  by rewrite !lookup_insert_ne.
Qed.

Lemma handleRangeMarkersConfigChanged_synced
    (rangeMarkersConfig : RangeMarkersConfig) (st : State) :
  synced (handleRangeMarkersConfigChanged rangeMarkersConfig st) /\
  sameView st (handleRangeMarkersConfigChanged rangeMarkersConfig st).
Proof.
  destruct (rangeMarkers_fold_synced rangeMarkersConfig
              (map_to_list (layers st)) (NoDup_fst_map_to_list _) st)
    as (Hview & Hsynced).
  { intros instanceId entry. apply elem_of_map_to_list. }
  split; [|done].
  intros instanceId entry Hentry.
  apply Hsynced; [|done]. right.
  rewrite handleRangeMarkersConfigChanged_layers, lookup_fmap in Hentry.
  destruct (layers st !! instanceId) as [old|] eqn:Hold; [|done].
  apply list_elem_of_fmap. exists (instanceId, old).
  split; [done|]. by apply elem_of_map_to_list.
Qed.

(** X11. After the constructor's loop, after a camera change and after a
    range-marker event, every grid layer of the config has a renderable
    built from its current settings, whatever the renderables were before;
    the first two leave the config as it is. Config entries are of their
    declared types. *)
Theorem synced_after_events (st : State) :
  wellTypedLayers (layers st) = true ->
  synced (loadExistingLayers st) /\
  layers (loadExistingLayers st) = layers st /\
  synced (handleCameraStateChanged st) /\
  layers (handleCameraStateChanged st) = layers st /\
  (forall rangeMarkersConfig,
     synced (handleRangeMarkersConfigChanged rangeMarkersConfig st)).
Proof.
  intros _. destruct (gridLayers_synced st) as (Hsynced & Hlayers & _).
  split; [done|]. split; [done|]. split; [done|]. split; [done|].
  intros rangeMarkersConfig.
  apply handleRangeMarkersConfigChanged_synced.
Qed.

Lemma followCameraSettings_markers (st : State)
    (newSettings : LayerSettingsGrid) :
  rangeMarkerVisible (followCameraSettings st newSettings)
  = rangeMarkerVisible newSettings /\
  rangeMarkerFollowCamera (followCameraSettings st newSettings)
  = rangeMarkerFollowCamera newSettings /\
  rangeMarkerFollowCameraNudge (followCameraSettings st newSettings)
  = rangeMarkerFollowCameraNudge newSettings.
Proof.
  unfold followCameraSettings.
  by destruct (rangeMarkerFollowCamera newSettings) eqn:Hfollow.
Qed.

Lemma mergeSettings_withRangeMarkersConfig
    (rangeMarkersConfig : RangeMarkersConfig) (entry : LayerEntry) :
  let merged :=
    mergeSettings (withRangeMarkersConfig rangeMarkersConfig entry) in
  rangeMarkerVisible merged = true /\
  rangeMarkerFollowCameraNudge merged = (0, 0)%Q /\
  rangeMarkerFollowCamera merged = followCamera rangeMarkersConfig /\
  gridSize merged = getNum entry "gridSize" DEFAULT_GRID_SIZE /\
  gridDivisions merged = getNum entry "gridDivisions" DEFAULT_GRID_DIVISIONS.
Proof.
  unfold withRangeMarkersConfig.
  cbn [mergeSettings rangeMarkerVisible rangeMarkerFollowCameraNudge
       rangeMarkerFollowCamera gridSize gridDivisions].
  unfold getBool, getVec2, getNum.
  repeat split.
  - rewrite !lookup_insert_ne by done. by rewrite lookup_insert_eq.
  - rewrite lookup_insert_ne by done. by rewrite lookup_insert_eq.
  - by rewrite lookup_insert_eq.
  - by rewrite !lookup_insert_ne by done.
  - by rewrite !lookup_insert_ne by done.
Qed.

(** X12. After a range-marker event the renderable of every grid layer
    shows the markers: its settings have the markers visible, the nudge at
    [[0, 0]] and camera-follow as the event says, and a renderable exists
    for the layer even if none did before. Config entries are of their
    declared types. *)
Theorem rangeMarkersConfigChanged_renderables
    (rangeMarkersConfig : RangeMarkersConfig) (st : State)
    (instanceId : string) (entry : LayerEntry) :
  wellTypedLayers (layers st) = true ->
  layers st !! instanceId = Some entry ->
  isGridLayer entry = true ->
  let st' := handleRangeMarkersConfigChanged rangeMarkersConfig st in
  exists renderable : GridRenderable,
    renderables st' !! instanceId = Some renderable /\
    rangeMarkerVisible (userData_settings renderable) = true /\
    rangeMarkerFollowCameraNudge (userData_settings renderable) = (0, 0)%Q /\
    rangeMarkerFollowCamera (userData_settings renderable)
    = followCamera rangeMarkersConfig /\
    gridSize (userData_settings renderable)
    = getNum entry "gridSize" DEFAULT_GRID_SIZE /\
    gridDivisions (userData_settings renderable)
    = getNum entry "gridDivisions" DEFAULT_GRID_DIVISIONS.
Proof.
  intros _ Hentry Hgrid st'.
  destruct (handleRangeMarkersConfigChanged_synced rangeMarkersConfig st)
    as [Hsynced _].
  destruct (Hsynced instanceId (withRangeMarkersConfig rangeMarkersConfig entry))
    as (renderable & Hstored & Hsettings).
  - rewrite handleRangeMarkersConfigChanged_layers, lookup_fmap, Hentry.
    cbn. by rewrite Hgrid.
  - by rewrite isGridLayer_withRangeMarkersConfig.
  - exists renderable. split; [done|]. rewrite Hsettings.
    match goal with
    | |- context [followCameraSettings ?st0 ?merged] =>
        destruct (followCameraSettings_markers st0 merged) as (-> & -> & ->);
        destruct (followCameraSettings_grid st0 merged) as (_ & _ & -> & ->)
    end.
    apply mergeSettings_withRangeMarkersConfig.
Qed.

Lemma handleSettingsAction_update (root key field : string) (value : Value)
    (st : State) :
  handleSettingsAction (Update [root; key; field] value) st
  = let st1 := saveSetting [root; key; field] value st in
    updateGrid key (layers st1 !! key) st1.
Proof.
  unfold handleSettingsAction. cbn [length lookup list_lookup].
  by rewrite decide_False by (intros H; by apply H).
Qed.

Lemma handleSettingsAction_delete (root key : string) (st : State) :
  handleSettingsAction (PerformNodeAction [root; key] "delete") st
  = updateSettingsTree
      (updateGrid key None (updateConfig (delete key) st)).
Proof.
  unfold handleSettingsAction. cbn [length lookup list_lookup].
  by rewrite decide_True.
Qed.

Lemma handleSettingsAction_cases (action : SettingsTreeAction) (st : State) :
  handleSettingsAction action st = st \/
  (exists root key field value,
     action = Update [root; key; field] value) \/
  (exists root key, action = PerformNodeAction [root; key] "delete").
Proof.
  destruct action as [path value|path id]; unfold handleSettingsAction.
  - case_decide as Hlength; [by left|]. right. left.
    assert (length path = 3%nat) as Hthree.
    { destruct (decide (length path = 3%nat)); [done|by exfalso]. }
    destruct path as [|root [|key [|field [|extra rest]]]];
      try (cbn [length] in Hthree; lia).
    by exists root, key, field, value.
  - case_decide as Hdelete; [|by left]. right. right.
    destruct Hdelete as [Hlength ->].
    destruct path as [|root [|key [|extra rest]]];
      try (cbn [length] in Hlength; lia).
    by exists root, key.
Qed.

Lemma handleSettingsAction_synced (action : SettingsTreeAction) (st : State) :
  synced st -> synced (handleSettingsAction action st).
Proof.
  intros Hsynced.
  destruct (handleSettingsAction_cases action st)
    as [->|[(root & key & field & value & ->)|(root & key & ->)]]; [done| |].
  - rewrite handleSettingsAction_update. cbv zeta.
    intros instanceId. destruct (decide (instanceId = key)) as [->|Hother].
    + apply syncedAt_updateGrid_self. intros stored Hstored. by exists stored.
    + apply syncedAt_updateGrid_other; [done|].
      apply syncedAt_saveSetting; [by intros [= ->]|]. exact (Hsynced _).
  - rewrite handleSettingsAction_delete.
    intros instanceId. apply syncedAt_updateSettingsTree.
    destruct (decide (instanceId = key)) as [->|Hother].
    + intros entry Hentry.
      destruct (updateGrid_renderer key None (updateConfig (delete key) st))
        as [Hlayers _].
      rewrite Hlayers in Hentry. cbn [updateConfig layers] in Hentry.
      by rewrite lookup_delete_eq in Hentry.
    + apply syncedAt_updateGrid_other; [done|].
      apply syncedAt_updateConfig; [by rewrite lookup_delete_ne|].
      exact (Hsynced _).
Qed.

Lemma handleAddGrid_synced (instanceId : string) (st : State) :
  synced st -> synced (handleAddGrid instanceId st).
Proof.
  intros Hsynced other. unfold handleAddGrid.
  apply syncedAt_updateSettingsTree.
  destruct (decide (other = instanceId)) as [->|Hother].
  - apply syncedAt_updateGrid_self. intros stored Hstored.
    cbn [updateConfig layers] in Hstored.
    rewrite lookup_insert_eq in Hstored. injection Hstored as <-.
    eexists. split; [reflexivity|].
    destruct (mergeSettings_entryOfSettings
                   {| visible := visible DEFAULT_SETTINGS;
                      frameLocked := frameLocked DEFAULT_SETTINGS;
                      label := label DEFAULT_SETTINGS;
                      instanceId := instanceId;
                      layerId := layerId DEFAULT_SETTINGS;
                      frameId := frameId DEFAULT_SETTINGS;
                      gridSize := gridSize DEFAULT_SETTINGS;
                      gridDivisions := gridDivisions DEFAULT_SETTINGS;
                      gridLineWidth := gridLineWidth DEFAULT_SETTINGS;
                      gridColor := gridColor DEFAULT_SETTINGS;
                      gridPosition := gridPosition DEFAULT_SETTINGS;
                      gridRotation := gridRotation DEFAULT_SETTINGS;
                      rangeMarkerVisible := rangeMarkerVisible DEFAULT_SETTINGS;
                      rangeMarkerFollowCamera :=
                        rangeMarkerFollowCamera DEFAULT_SETTINGS;
                      rangeMarkerFollowCameraNudge :=
                        rangeMarkerFollowCameraNudge DEFAULT_SETTINGS;
                      rangeMarkerPosition :=
                        rangeMarkerPosition DEFAULT_SETTINGS;
                      rangeMarkerFontSize :=
                        rangeMarkerFontSize DEFAULT_SETTINGS;
                      rangeMarkerFontColor :=
                        rangeMarkerFontColor DEFAULT_SETTINGS |}
                   (nextOrder (layers st))) as (_ & Hplain & Hordered & _).
    exact (eq_trans Hplain (eq_sym Hordered)).
  - apply syncedAt_updateGrid_other; [done|].
    apply syncedAt_updateConfig; [by rewrite lookup_insert_ne|].
    exact (Hsynced _).
Qed.

(** X13. Once every grid layer of the config has a renderable built from
    its current settings, this stays so under every settings action (an
    update or a delete, well formed or not), under the adding of a grid,
    the building of the settings nodes, a transform-tree update and a frame
    start. Config entries are of their declared types. *)
Theorem synced_preserved (st : State) :
  synced st ->
  wellTypedLayers (layers st) = true ->
  (forall action,
     match action with
     | Update path value =>
         wellTypedLayers (setPath path value (layers st)) = true
     | PerformNodeAction _ _ => True
     end ->
     synced (handleSettingsAction action st)) /\
  (forall instanceId, synced (handleAddGrid instanceId st)) /\
  synced (settingsNodes st).2 /\
  synced (handleTransformTreeUpdated st) /\
  (forall renderFrameId, synced (startFrame renderFrameId st)).
Proof.
  intros Hsynced _.
  split; [by intros; apply handleSettingsAction_synced|].
  split; [by intros; apply handleAddGrid_synced|].
  assert (synced (updateSettingsTree st)) as Htree.
  { intros instanceId. apply syncedAt_updateSettingsTree. exact (Hsynced _). }
  split; [|split; [done|]].
  - intros instanceId.
    destruct (updateSettingsTree_spec st) as (_ & _ & _ & Hrenderables).
    destruct (settingsNodes_spec st) as (Hview & _).
    pose proof (settingsNodes_layers st) as Hlayers.
    intros entry Hentry Hgrid.
    destruct (Htree instanceId entry) as (renderable & Hstored & Hsettings);
      [by rewrite updateSettingsTree_layers, <- Hlayers|done|].
    exists renderable. rewrite <- Hrenderables. split; [done|].
    rewrite Hsettings.
    rewrite (followCameraSettings_sameView st (updateSettingsTree st))
      by apply updateSettingsTree_spec.
    by rewrite (followCameraSettings_sameView st (settingsNodes st).2).
  - intros renderFrameId instanceId entry Hentry Hgrid.
    destruct (Hsynced instanceId entry Hentry Hgrid)
      as (renderable & Hstored & Hsettings).
    eexists. rewrite startFrame_lookup, Hstored.
    split; [reflexivity|]. cbn [userData_settings]. rewrite Hsettings.
    symmetry. by apply followCameraSettings_ext.
Qed.

(** *** Settings actions, one by one *)

(** X14. An update action with the path [["layers"; key; field]] merges
    the one field into the entry of [key] (an entry is made if there was
    none), leaves the other keys of that entry and all other layers as they
    are, and rebuilds the renderable of [key] from the new entry: its
    stored settings are the merged new entry and its line list and labels
    are the generators' output on them. Entries are of their declared
    types before and after. *)
Theorem handleSettingsAction_update_field (key field : string) (value : Value)
    (st : State) :
  wellTypedLayers (layers st) = true ->
  wellTypedEntry (<[field := value]> (default ∅ (layers st !! key))) = true ->
  let st' := handleSettingsAction (Update ["layers"; key; field] value) st in
  let entry' := <[field := value]> (default ∅ (layers st !! key)) in
  layers st' = <[key := entry']> (layers st) /\
  entry' !! field = Some value /\
  (forall other : string,
     other <> field -> entry' !! other = default ∅ (layers st !! key) !! other) /\
  exists renderable : GridRenderable,
    renderables st' !! key = Some renderable /\
    userData_settings renderable
    = followCameraSettings st (mergeSettings entry') /\
    lineList_marker (userData_lineList renderable)
    = createLineList (userData_settings renderable) /\
    texts_entity (userData_texts renderable)
    = createTexts (userData_settings renderable).
Proof.
  intros _ _ st' entry'. unfold st'.
  rewrite handleSettingsAction_update. cbv zeta.
  set (st1 := saveSetting ["layers"; key; field] value st).
  assert (layers st1 = <[key := entry']> (layers st)) as Hlayers.
  { unfold st1. by rewrite saveSetting_layers. }
  assert (sameView st st1) as Hview.
  { unfold st1, saveSetting.
    eapply sameView_trans; [|apply updateSettingsTree_spec]. done. }
  assert (layers st1 !! key = Some entry') as ->
    by (rewrite Hlayers; apply lookup_insert_eq).
  split.
  { by destruct (updateGrid_renderer key (Some entry') st1) as [-> _]. }
  split; [apply lookup_insert_eq|].
  split; [by intros other Hother; apply lookup_insert_ne|].
  destruct (updateGrid_result key entry' st1)
    as (renderable & Hstored & Hsettings & Hmarker & _ & Htexts).
  exists renderable. split; [done|].
  rewrite Hmarker, Htexts, Hsettings.
  by rewrite (followCameraSettings_sameView st st1).
Qed.

(** Effects that dispose nothing. *)
Lemma disposals_unchanged (instanceId : string) (part : SubObject)
    (before extra : list Effect) :
  Forall (fun effect => exists poseOf position rotation,
            effect = PoseComputed poseOf position rotation) extra ->
  disposals instanceId part (before ++ extra)
  = disposals instanceId part before.
Proof.
  intros Hposes. rewrite disposals_app.
  assert (disposals instanceId part extra = 0%nat) as ->; [|lia].
  unfold disposals.
  induction Hposes as [|effect extra (poseOf & position & rotation & ->) _ IH];
    [done|].
  simpl. by destruct part.
Qed.

Lemma updateGrid_trace_poses (instanceId : string) (entry : LayerEntry)
    (st : State) :
  exists poses : list Effect,
    trace (updateGrid instanceId (Some entry) st) = trace st ++ poses /\
    Forall (fun effect => exists poseOf position rotation,
              effect = PoseComputed poseOf position rotation) poses.
Proof.
  unfold updateGrid, obtainRenderable.
  destruct (renderables st !! instanceId);
    cbn [createRenderable trace fst snd];
    match goal with
    | |- context [if ?c then _ else _] => destruct c
    end.
  - eexists [_]. split; [reflexivity|]. repeat constructor. by eexists _, _, _.
  - exists []. by rewrite app_nil_r.
  - eexists [_; _]. rewrite <- app_assoc. split; [reflexivity|].
    repeat constructor; by eexists _, _, _.
  - eexists [_]. split; [reflexivity|]. repeat constructor. by eexists _, _, _.
Qed.

Lemma settingsNodes_trace_poses (st : State) :
  exists poses : list Effect,
    trace (settingsNodes st).2 = trace st ++ poses /\
    Forall (fun effect => exists poseOf position rotation,
              effect = PoseComputed poseOf position rotation) poses.
Proof.
  unfold settingsNodes.
  change (trace st) with (trace (([] : list SettingsTreeEntry), st).2).
  generalize (([] : list SettingsTreeEntry), st) as acc.
  generalize (map_to_list (layers st)) as items.
  induction items as [|[key entry] items IH]; intros [entries st0].
  - exists []. by rewrite app_nil_r.
  - cbn [foldl].
    destruct (IH (settingsNodesStep (entries, st0) (key, entry)))
      as (poses & -> & Hposes).
    unfold settingsNodesStep.
    destruct (isGridLayer entry); cbn [negb snd]; [|by exists poses].
    destruct (renderables st0 !! key); [by exists poses|].
    destruct (updateGrid_trace_poses key entry st0) as (first & -> & Hfirst).
    exists (first ++ poses). rewrite <- app_assoc. split; [done|].
    by apply Forall_app.
Qed.

(** X15. A "delete" node action with a two-segment path, whatever its
    first segment, removes the instance named by the second segment: its
    entry leaves the config, its renderable leaves the mapping and the
    scene, and if there was a renderable each of its two sub-objects is
    disposed exactly once. The renderables of other instances stay. The
    scene and the mapping agree beforehand, and config entries are of their
    declared types. *)
Theorem handleSettingsAction_deletes (root key : string) (st : State) :
  sceneConsistent st ->
  wellTypedLayers (layers st) = true ->
  let st' := handleSettingsAction (PerformNodeAction [root; key] "delete") st in
  let disposed :=
    match renderables st !! key with Some _ => 1%nat | None => 0%nat end in
  layers st' = delete key (layers st) /\
  renderables st' !! key = None /\
  (key ∉ children st') /\
  (forall (other : string) (renderable : GridRenderable),
     other <> key ->
     renderables st !! other = Some renderable ->
     renderables st' !! other = Some renderable) /\
  disposals key LineListPart (trace st')
  = (disposals key LineListPart (trace st) + disposed)%nat /\
  disposals key TextsPart (trace st')
  = (disposals key TextsPart (trace st) + disposed)%nat.
Proof.
  intros Hscene _ st' disposed. unfold st'.
  rewrite handleSettingsAction_delete.
  set (st1 := updateConfig (delete key) st).
  set (st2 := updateGrid key None st1).
  destruct (updateSettingsTree_spec st2)
    as (_ & Hlayers & Hchildren & Hrenderables).
  destruct (settingsNodes_spec st2) as (_ & _ & Hnodes).
  assert (layers st2 = delete key (layers st)) as Hlayers2.
  { unfold st2. by destruct (updateGrid_renderer key None st1) as [-> _]. }
  assert (renderables st2 !! key = None) as Hgone.
  { unfold st2, updateGrid. cbn [updateConfig renderables st1].
    destruct (renderables st !! key) eqn:Hold.
    - cbn [renderables]. by rewrite lookup_delete_eq.
    - done. }
  assert (renderables (updateSettingsTree st2) !! key = None) as Hgone'.
  { rewrite Hrenderables, Hnodes, Hgone, Hlayers2.
    by rewrite lookup_delete_eq. }
  assert (sceneConsistent (updateSettingsTree st2)) as Hscene'.
  { destruct (handlers_keep sceneConsistent) with (st := st2)
      as (_ & Htree & _).
    - intros. by apply updateGrid_sceneConsistent.
    - intros st0 st0' Hr Hc [Hnodup Hagree].
      split; [by rewrite Hc|]. intros instanceId. rewrite Hc, Hr. apply Hagree.
    - unfold st2. apply updateGrid_sceneConsistent. exact Hscene.
    - done. }
  split; [by rewrite Hlayers|]. split; [done|]. split.
  { intros Hin. apply Hscene' in Hin. rewrite Hgone' in Hin.
    by destruct Hin. }
  split.
  { intros other renderable Hother Hstored.
    rewrite Hrenderables, Hnodes.
    destruct (updateGrid_other key other None st1 Hother) as [Hkept _].
    fold st2 in Hkept.
    assert (renderables st2 !! other = Some renderable) as ->
      by (rewrite Hkept; exact Hstored).
    done. }
  assert (trace st2
          = trace st ++ match renderables st !! key with
                         | Some _ => [Disposed key LineListPart;
                                      Disposed key TextsPart]
                         | None => []
                         end) as Htrace2.
  { unfold st2, updateGrid. cbn [updateConfig renderables st1].
    destruct (renderables st !! key); [done|].
    cbn [trace st1 updateConfig]. by rewrite app_nil_r. }
  destruct (settingsNodes_trace_poses st2) as (poses & Htrace & Hposes).
  assert (trace (updateSettingsTree st2) = trace st2 ++ poses) as Htrace'.
  { rewrite <- Htrace. unfold updateSettingsTree.
    by destruct (settingsNodes st2). }
  rewrite Htrace', !disposals_unchanged by done.
  rewrite Htrace2, !disposals_app. unfold disposed.
  destruct (renderables st !! key); unfold disposals; simpl;
    rewrite ?String.eqb_refl; simpl; split; lia.
Qed.



(** *** Range markers without the camera *)

(** X17. The configured range-marker position is used as it is whenever
    camera-follow is off or the renderer has no camera state: the update
    path then stores the position of the entry, or the default
    [[-10, -10]] when the entry has none. *)
Theorem rangeMarkerPosition_kept (instanceId : string) (entry : LayerEntry)
    (st : State) :
  wellTypedEntry entry = true ->
  cameraState st = None \/
  getBool entry "rangeMarkerFollowCamera" false = false ->
  exists renderable : GridRenderable,
    renderables (updateGrid instanceId (Some entry) st) !! instanceId
    = Some renderable /\
    rangeMarkerPosition (userData_settings renderable)
    = getVec2 entry "rangeMarkerPosition" DEFAULT_RANGE_MARKER_POSITION.
Proof.
  intros _ Hcase.
  destruct (updateGrid_result instanceId entry st)
    as (renderable & Hstored & Hsettings & _).
  exists renderable. split; [done|]. rewrite Hsettings.
  unfold followCameraSettings.
  destruct (rangeMarkerFollowCamera (mergeSettings entry)) eqn:Hfollow;
    [|done].
  destruct Hcase as [Hcamera|Hoff].
  - cbn [withRangeMarkerPosition rangeMarkerPosition].
    unfold nudgeRangeMarkersIntoView. by rewrite Hcamera.
  - cbn [mergeSettings rangeMarkerFollowCamera] in Hfollow.
    change (rangeMarkerFollowCamera DEFAULT_SETTINGS) with false in Hfollow.
    congruence.
Qed.

(** *** The fields of a settings node *)

(** X18. The settings node of a grid layer has one field for each of
    thirteen settings keys, each editing a value of the type the settings
    declare for its key. The camera-follow field is always disabled; of the
    nudge field and the position field exactly one is disabled, the nudge
    while camera-follow is off and the position while it is on; every other
    field is enabled. *)
Theorem gridFields_policy (config : LayerEntry)
    (frames : list (string * option string)) :
  let follow := getBool config "rangeMarkerFollowCamera" false in
  (gridFields config frames).*1
  = [ "frameId"; "gridSize"; "gridDivisions"; "gridLineWidth"; "gridColor";
      "gridPosition"; "gridRotation"; "rangeMarkerVisible";
      "rangeMarkerFollowCamera"; "rangeMarkerFollowCameraNudge";
      "rangeMarkerPosition"; "rangeMarkerFontSize"; "rangeMarkerFontColor" ] /\
  (forall (key : string) (field : SettingsTreeField),
     (key, field) ∈ gridFields config frames ->
     (key, inputKind (field_input field)) ∈ declaredKinds /\
     field_disabled field
     = if String.eqb key "rangeMarkerFollowCamera" then true
       else if String.eqb key "rangeMarkerFollowCameraNudge" then negb follow
       else if String.eqb key "rangeMarkerPosition" then follow
       else false).
Proof.
  intros follow. split; [reflexivity|].
  intros key field Hin. unfold gridFields in Hin.
  repeat (apply elem_of_cons in Hin as [[= -> ->]|Hin];
          [split; [cbn; set_solver|reflexivity]|]).
  by apply not_elem_of_nil in Hin.
Qed.

(** *** The scene after the constructor *)




End Grids.

(** ** The message filters panel *)

(** X20. In the settings tree of the message filters panel the topic
    select offers exactly the topics whose schema is
    sensor_msgs/msg/PointCloud2, by name and in the order of the topic
    list, whatever the config holds; the field select of the filters node
    offers one option per topic, its schema name, without removing
    duplicates. *)
Theorem buildSettingsTree_options (config : MessageFiltersPanel.Config)
    (topics : list MessageFiltersPanel.Topic) :
  let tree := MessageFiltersPanel.buildSettingsTree config topics in
  let offered :=
    MessageFiltersPanel.optionsOf
      (MessageFiltersPanel.fieldAt tree "general" "topic") in
  let fields :=
    MessageFiltersPanel.optionsOf
      (MessageFiltersPanel.fieldAt tree "filter" "field") in
  (forall choice : string,
     choice ∈ MessageFiltersPanel.option_value <$> offered
     <-> exists item : MessageFiltersPanel.Topic,
           item ∈ topics /\
           MessageFiltersPanel.schemaName item = "sensor_msgs/msg/PointCloud2" /\
           MessageFiltersPanel.name item = choice) /\
  MessageFiltersPanel.option_value <$> offered
  = MessageFiltersPanel.name
      <$> List.filter
            (fun item =>
               String.eqb (MessageFiltersPanel.schemaName item)
                 "sensor_msgs/msg/PointCloud2") topics /\
  (forall choice : MessageFiltersPanel.SelectOption,
     choice ∈ offered ++ fields ->
     MessageFiltersPanel.option_label choice
     = MessageFiltersPanel.option_value choice) /\
  (length offered <= length topics)%nat /\
  MessageFiltersPanel.option_value <$> fields
  = MessageFiltersPanel.schemaName <$> topics.
Proof.
  intros tree offered fields.
  change offered with
    ((fun item => MessageFiltersPanel.mkSelectOption
                    (MessageFiltersPanel.name item)
                    (MessageFiltersPanel.name item))
       <$> List.filter
             (fun item =>
                String.eqb (MessageFiltersPanel.schemaName item)
                  "sensor_msgs/msg/PointCloud2") topics).
  change fields with
    ((fun item => MessageFiltersPanel.mkSelectOption
                    (MessageFiltersPanel.schemaName item)
                    (MessageFiltersPanel.schemaName item)) <$> topics).
  clear tree offered fields.
  assert (forall items : list MessageFiltersPanel.Topic,
            MessageFiltersPanel.option_value
              <$> ((fun item => MessageFiltersPanel.mkSelectOption
                                  (MessageFiltersPanel.name item)
                                  (MessageFiltersPanel.name item)) <$> items)
            = MessageFiltersPanel.name <$> items) as Hnames.
  { intros items. rewrite <- list_fmap_compose. by apply list_fmap_ext. }
  split; [|split; [apply Hnames|split; [|split]]].
  - intros choice. rewrite Hnames, list_elem_of_fmap. split.
    + intros (item & -> & Hin).
      apply list_elem_of_In, filter_In in Hin as [Hin Hschema].
      exists item. split; [by apply list_elem_of_In|].
      by apply String.eqb_eq in Hschema.
    + intros (item & Hin & Hschema & <-). exists item. split; [done|].
      apply list_elem_of_In, filter_In. split; [by apply list_elem_of_In|].
      by apply String.eqb_eq.
  - intros choice [Hin|Hin]%elem_of_app;
      apply list_elem_of_fmap in Hin as (item & -> & _); reflexivity.
  - rewrite length_fmap. apply List.filter_length_le.
  - rewrite <- list_fmap_compose. by apply list_fmap_ext.
Qed.

(** X21. The placeholder of the publish field is the configured topic
    followed by "/filtered", for any topic list; while the config has no
    topic, as in the default config, it reads "undefined/filtered". *)
Theorem buildSettingsTree_placeholder (config : MessageFiltersPanel.Config)
    (topics : list MessageFiltersPanel.Topic) :
  let shown :=
    MessageFiltersPanel.placeholderOf
      (MessageFiltersPanel.fieldAt
         (MessageFiltersPanel.buildSettingsTree config topics)
         "general" "publish") in
  (forall chosen : string,
     MessageFiltersPanel.topic config = Some chosen ->
     shown = Some (chosen ++ "/filtered")%string) /\
  (MessageFiltersPanel.topic config = None ->
   shown = Some "undefined/filtered") /\
  MessageFiltersPanel.placeholderOf
    (MessageFiltersPanel.fieldAt
       (MessageFiltersPanel.buildSettingsTree
          MessageFiltersPanel.DEFAULT_CONFIG topics)
       "general" "publish")
  = Some "undefined/filtered".
Proof.
  intros shown. unfold shown. cbn. split; [|split; [|reflexivity]].
  - by intros chosen ->.
  - by intros ->.
Qed.

(** ** Worked examples *)

Local Abbreviation createLineList' := (createLineList identityPose keepColor).
Local Abbreviation createTexts' := (createTexts keepColor exponentNotation).
Local Abbreviation nudge' := (nudgeRangeMarkersIntoView sineOf45).
Local Abbreviation updateGrid' :=
  (updateGrid identityPose translationPose keepColor withinEpsilon sineOf45
     exponentNotation).
Local Abbreviation loadExistingLayers' :=
  (loadExistingLayers identityPose translationPose keepColor withinEpsilon
     sineOf45 exponentNotation).
Local Abbreviation handleSettingsAction' :=
  (handleSettingsAction identityPose translationPose keepColor withinEpsilon
     sineOf45 exponentNotation 3 1 untranslated).
Local Abbreviation handleRangeMarkersConfigChanged' :=
  (handleRangeMarkersConfigChanged identityPose translationPose keepColor
     withinEpsilon sineOf45 exponentNotation 3 1 untranslated).
Local Abbreviation settingsNodes' :=
  (settingsNodes identityPose translationPose keepColor withinEpsilon
     sineOf45 exponentNotation 3 1 untranslated).
Local Abbreviation handleAddGrid' :=
  (handleAddGrid identityPose translationPose keepColor withinEpsilon
     sineOf45 exponentNotation 3 1 untranslated).
Local Abbreviation handleCameraStateChanged' :=
  (handleCameraStateChanged identityPose translationPose keepColor
     withinEpsilon sineOf45 exponentNotation).
Local Abbreviation gridFields' := (gridFields 3 1 untranslated).

(** C1, counterexample. A division count of 0 stored in the config is
    loaded by the constructor's loop and reaches both generators as 0; a
    stored 5000 reaches them as 5000. *)
Lemma division_count_not_clamped :
  (let st := loadExistingLayers' (freshRenderer {[ "grid-1" := gridEntry 0 ]}) in
   exists renderable : GridRenderable,
     renderables st !! "grid-1" = Some renderable /\
     gridDivisions (userData_settings renderable) = 0%Q /\
     lineList_marker (userData_lineList renderable)
     = createLineList' (userData_settings renderable) /\
     ~ (1 <= gridDivisions (userData_settings renderable) <= 4096)%Q) /\
  (let st :=
     loadExistingLayers' (freshRenderer {[ "grid-1" := gridEntry 5000 ]}) in
   exists renderable : GridRenderable,
     renderables st !! "grid-1" = Some renderable /\
     gridDivisions (userData_settings renderable) = 5000%Q /\
     lineList_marker (userData_lineList renderable)
     = createLineList' (userData_settings renderable) /\
     ~ (1 <= gridDivisions (userData_settings renderable) <= 4096)%Q).
Proof.
  split.
  - eexists. split; [vm_compute; reflexivity|]. cbn [userData_settings].
    split; [reflexivity|]. split; [vm_compute; reflexivity|].
    intros [Hlow _]. vm_compute in Hlow. by apply Hlow.
  - cbv zeta. unfold loadExistingLayers. cbn [layers freshRenderer].
    rewrite map_to_list_singleton. cbn [foldl]. unfold gridLayerStep.
    replace (isGridLayer (gridEntry 5000)) with true by reflexivity.
    destruct (updateGrid_result identityPose translationPose keepColor
                withinEpsilon sineOf45 exponentNotation "grid-1"
                (gridEntry 5000)
                (freshRenderer {[ "grid-1" := gridEntry 5000 ]}))
      as (renderable & Hlookup & Hsettings & Hmarker & _).
    exists renderable. split; [exact Hlookup|].
    rewrite Hmarker, Hsettings.
    destruct (followCameraSettings_grid sineOf45
                (freshRenderer {[ "grid-1" := gridEntry 5000 ]})
                (mergeSettings (gridEntry 5000)))
      as (_ & _ & _ & ->).
    split; [reflexivity|]. split; [reflexivity|].
    intros [_ Hhigh]. vm_compute in Hhigh. by apply Hhigh.
Qed.




(** C4, worked at the values of the specification: distance 10, field of
    view 90, a square drawing buffer, no nudge, a grid of size 10 in 10
    divisions at the origin. The viewport bound is [10 * sin 45] on both
    axes, the grid bound [-5 - 1/2]; the marker takes the larger. *)
Lemma nudge_componentwise_max_witness :
  let marker := nudge' (viewedRenderer ∅) (sampleSettings 10 true) in
  (marker.1 == Qmax (sineOf45 (90 / 2) * 10 + 0 + 0)
                 (0 - 10 / 2 - (1 # 2) * 10 / 10))%Q /\
  (marker.1 == 8509 # 1000)%Q /\ (marker.2 == 8509 # 1000)%Q.
Proof.
  destruct (nudge_componentwise_max identityPose translationPose keepColor
              withinEpsilon sineOf45 exponentNotation (viewedRenderer ∅)
              (sampleSettings 10 true) (mkCameraState 10 90 (0, 0, 0)%Q))
    as (Hfirst & Hsecond & _); [reflexivity|discriminate|discriminate|].
  split; [exact Hfirst|]. split.
  - rewrite Hfirst. reflexivity.
  - rewrite Hsecond. reflexivity.
Defined.

(** C5, worked on an update whose path has two segments. *)
Lemma malformed_action_ignored_witness :
  handleSettingsAction' (Update ["layers"; "grid-1"] (VNum 20))
    (freshRenderer {[ "grid-1" := gridEntry 10 ]})
  = freshRenderer {[ "grid-1" := gridEntry 10 ]}.
Proof.
  apply (malformed_action_ignored identityPose translationPose keepColor
           withinEpsilon sineOf45 exponentNotation 3 1 untranslated
           (Update ["layers"; "grid-1"] (VNum 20))).
  simpl. lia.
Defined.

(** C6, worked on an id no layer ever had. *)
Lemma updateGrid_delete_absent_witness :
  updateGrid' "ghost" None (freshRenderer {[ "grid-1" := gridEntry 10 ]})
  = freshRenderer {[ "grid-1" := gridEntry 10 ]}.
Proof.
  apply (updateGrid_delete_absent identityPose translationPose keepColor
           withinEpsilon sineOf45 exponentNotation "ghost").
  reflexivity.
Defined.

(** C7, worked on a loaded grid that is then moved by one unit along x:
    the position differs, and the pose is the one computed for the new
    position. *)
Lemma pose_recomputed_iff_changed_witness :
  let st := loadExistingLayers' (freshRenderer {[ "grid-1" := gridEntry 2 ]}) in
  let moved : LayerEntry :=
    <["gridPosition" := VVec3 (1, 0, 0)%Q]> (gridEntry 2) in
  exists before after : GridRenderable,
    renderables st !! "grid-1" = Some before /\
    renderables (updateGrid' "grid-1" (Some moved) st) !! "grid-1"
    = Some after /\
    userData_pose before = translationPose (0, 0, 0)%Q (0, 0, 0)%Q /\
    userData_pose after = translationPose (1, 0, 0)%Q (0, 0, 0)%Q.
Proof.
  intros st moved.
  destruct (renderables st !! "grid-1") as [before|] eqn:Hbefore;
    [|vm_compute in Hbefore; discriminate Hbefore].
  destruct (pose_recomputed_iff_changed identityPose translationPose keepColor
              withinEpsilon sineOf45 exponentNotation "grid-1" moved st before
              eq_refl Hbefore)
    as (after & Hafter & _ & Hmoved & _).
  exists before, after. split; [reflexivity|]. split; [exact Hafter|].
  vm_compute in Hbefore. injection Hbefore as <-.
  split; [reflexivity|].
  apply Hmoved. left. reflexivity.
Defined.

(** C9, worked on one stored grid layer and an event asking the markers to
    follow the camera. *)
Lemma rangeMarkersConfigChanged_overwrites_witness :
  let st := freshRenderer {[ "grid-1" := gridEntry 2 ]} in
  exists entry' : LayerEntry,
    layers (handleRangeMarkersConfigChanged' (mkRangeMarkersConfig true) st)
      !! "grid-1" = Some entry' /\
    entry' !! "rangeMarkerVisible" = Some (VBool true) /\
    entry' !! "rangeMarkerFollowCameraNudge" = Some (VVec2 (0, 0)%Q) /\
    entry' !! "rangeMarkerFollowCamera" = Some (VBool true) /\
    entry' !! "gridDivisions" = Some (VNum 2).
Proof.
  intros st.
  destruct (rangeMarkersConfigChanged_overwrites identityPose translationPose
              keepColor withinEpsilon sineOf45 exponentNotation 3 1
              untranslated (mkRangeMarkersConfig true) st "grid-1"
              (gridEntry 2))
    as (entry' & Hstored & Hvisible & Hnudge & Hfollow & Hothers);
    [reflexivity|reflexivity|reflexivity|].
  exists entry'. split; [exact Hstored|]. split; [exact Hvisible|].
  split; [exact Hnudge|]. split; [exact Hfollow|].
  rewrite Hothers; [reflexivity|discriminate..].
Defined.

(** C1, worked on a stored division count of 7 and on an entry without
    one. *)
Lemma division_count_passed_through_witness :
  (exists renderable : GridRenderable,
     renderables (updateGrid' "grid-1" (Some (gridEntry 7)) (freshRenderer ∅))
       !! "grid-1" = Some renderable /\
     gridDivisions (userData_settings renderable) = 7%Q) /\
  (exists renderable : GridRenderable,
     renderables
       (updateGrid' "grid-1" (Some bareGridEntry) (freshRenderer ∅))
       !! "grid-1" = Some renderable /\
     gridDivisions (userData_settings renderable) = 10%Q).
Proof.
  split.
  - destruct (division_count_passed_through identityPose translationPose
                keepColor withinEpsilon sineOf45 exponentNotation 3 1
                untranslated "grid-1" (gridEntry 7) (freshRenderer ∅) eq_refl)
      as ((renderable & Hlookup & _ & Hstored & _) & _).
    exists renderable. split; [exact Hlookup|]. by apply Hstored.
  - destruct (division_count_passed_through identityPose translationPose
                keepColor withinEpsilon sineOf45 exponentNotation 3 1
                untranslated "grid-1" bareGridEntry (freshRenderer ∅) eq_refl)
      as ((renderable & Hlookup & Hdefault & _) & _).
    exists renderable. split; [exact Hlookup|]. by apply Hdefault.
Defined.

(** C8, worked on a grid of two divisions with markers shown: after the
    second call the renderable still holds 12 points and 6 labels. *)
Lemma updateGrid_idempotent_witness :
  let entry : LayerEntry :=
    <["rangeMarkerVisible" := VBool true]> (gridEntry 2) in
  let st2 :=
    updateGrid' "grid-1" (Some entry)
      (updateGrid' "grid-1" (Some entry) (freshRenderer ∅)) in
  exists second : GridRenderable,
    renderables st2 !! "grid-1" = Some second /\
    length (points (lineList_marker (userData_lineList second))) = 12%nat /\
    length (texts (texts_entity (userData_texts second))) = 6%nat /\
    children st2 = ["grid-1"].
Proof.
  intros entry st2.
  destruct (updateGrid_idempotent identityPose translationPose keepColor
              withinEpsilon sineOf45 exponentNotation "grid-1" entry
              (freshRenderer ∅) eq_refl)
    as (first & second & Hfirst & Hsecond & Hlines & Htexts & _ & _ & _
        & Hchildren & _).
  exists second. split; [exact Hsecond|].
  rewrite Hlines, Htexts. fold st2 in Hchildren. rewrite Hchildren.
  vm_compute in Hfirst. injection Hfirst as <-.
  split; [reflexivity|]. split; reflexivity.
Defined.

(** ** Worked examples of the further properties *)

(** X1, worked on a division count of 5/2, three turns, and on -1. *)
Lemma generators_turns_witness :
  length (points (createLineList' (sampleSettings (5 # 2) true))) = 12%nat /\
  length (texts (createTexts' (sampleSettings (5 # 2) true))) = 6%nat /\
  points (createLineList' (sampleSettings (-1) true)) = [].
Proof.
  destruct (generators_turns identityPose keepColor exponentNotation
              (sampleSettings (5 # 2) true)) as (Hpoints & Htexts & _).
  split; [exact Hpoints|]. split; [exact Htexts|].
  destruct (generators_turns identityPose keepColor exponentNotation
              (sampleSettings (-1) true)) as (_ & _ & Hnegative).
  apply Hnegative. reflexivity.
Defined.

(** X2, worked on the first label of a grid of two divisions. *)
Lemma createTexts_label_layout_witness :
  match texts (createTexts' (sampleSettings 2 true)) with
  | label :: _ =>
      billboard label = true /\ scale_invariant label = true /\
      font_size label = 20%Q /\ z (position (text_pose label)) = 0%Q
  | [] => False
  end.
Proof.
  destruct (texts (createTexts' (sampleSettings 2 true)))
    as [|label rest] eqn:Hlabels; [vm_compute in Hlabels; discriminate Hlabels|].
  destruct (createTexts_label_layout keepColor exponentNotation
              (sampleSettings 2 true) label)
    as (Hbillboard & Hscale & Hsize & _ & _ & Hz & _).
  - rewrite Hlabels. apply list_elem_of_here.
  - split; [exact Hbillboard|]. split; [exact Hscale|].
    split; [exact Hsize|exact Hz].
Defined.


(** X4, worked on a second grid added beside a loaded one. *)
Lemma updateGrid_leaves_others_witness :
  let st := loadExistingLayers' (freshRenderer {[ "grid-1" := gridEntry 10 ]}) in
  renderables (updateGrid' "grid-2" (Some (gridEntry 2)) st) !! "grid-1"
  = renderables st !! "grid-1" /\
  renderables (updateGrid' "grid-2" None st) !! "grid-1"
  = renderables st !! "grid-1".
Proof.
  intros st. split.
  - destruct (updateGrid_leaves_others identityPose translationPose keepColor
                withinEpsilon sineOf45 exponentNotation "grid-2" "grid-1"
                (Some (gridEntry 2)) st) as (Hkept & _);
      [discriminate|exact Hkept].
  - destruct (updateGrid_leaves_others identityPose translationPose keepColor
                withinEpsilon sineOf45 exponentNotation "grid-2" "grid-1"
                None st) as (Hkept & _);
      [discriminate|exact Hkept].
Defined.

(** X5, worked on the first grid of an empty renderer. *)
Lemma updateGrid_creates_witness :
  children (updateGrid' "grid-1" (Some (gridEntry 10)) (freshRenderer ∅))
  = ["grid-1"].
Proof.
  destruct (updateGrid_creates identityPose translationPose keepColor
              withinEpsilon sineOf45 exponentNotation "grid-1" (gridEntry 10)
              (freshRenderer ∅) eq_refl eq_refl) as [Hchildren _].
  exact Hchildren.
Defined.

(** X6, worked on an empty renderer: one grid created and deleted. *)
Lemma updateGrid_create_then_delete_witness :
  let st' :=
    updateGrid' "grid-1" None
      (updateGrid' "grid-1" (Some (gridEntry 10)) (freshRenderer ∅)) in
  renderables st' = ∅ /\ children st' = [] /\
  disposals "grid-1" LineListPart (trace st') = 1%nat /\
  disposals "grid-1" TextsPart (trace st') = 1%nat.
Proof.
  destruct (updateGrid_create_then_delete identityPose translationPose
              keepColor withinEpsilon sineOf45 exponentNotation "grid-1"
              (gridEntry 10) (freshRenderer ∅) eq_refl eq_refl)
    as (Hrenderables & Hchildren & _ & Hlines & Htexts).
  - apply not_elem_of_nil.
  - intros st'. split; [exact Hrenderables|]. split; [exact Hchildren|].
    split; [exact Hlines|exact Htexts].
Defined.

(** X7, worked from a renderer with one stored grid layer and nothing
    built: the scene is consistent after the constructor's loop and after
    a grid is added. *)
Lemma scene_invariant_witness :
  let st := freshRenderer {[ "grid-1" := gridEntry 10 ]} in
  sceneConsistent (loadExistingLayers' st) /\
  sceneConsistent (handleAddGrid' "grid-2" st).
Proof.
  intros st.
  destruct (scene_invariant identityPose translationPose keepColor
              withinEpsilon sineOf45 exponentNotation 3 1 untranslated st)
    as (_ & _ & _ & _ & _ & Hload & Hadd & _).
  - split; [constructor|]. intros instanceId.
    change (renderables st) with (∅ : gmap string GridRenderable).
    change (children st) with (@nil string).
    rewrite lookup_empty. split.
    + intros Hin. by apply not_elem_of_nil in Hin.
    + intros [renderable Hsome]. discriminate Hsome.
  - reflexivity.
  - split; [exact Hload|exact (Hadd "grid-2")].
Defined.

(** X8, worked from the same renderer. *)
Lemma geometry_invariant_witness :
  let st := freshRenderer {[ "grid-1" := gridEntry 10 ]} in
  geometryConsistent identityPose keepColor exponentNotation
    (loadExistingLayers' st) /\
  geometryConsistent identityPose keepColor exponentNotation
    (handleRangeMarkersConfigChanged' (mkRangeMarkersConfig true) st).
Proof.
  intros st.
  destruct (geometry_invariant identityPose translationPose keepColor
              withinEpsilon sineOf45 exponentNotation 3 1 untranslated st)
    as (_ & _ & _ & Hmarkers & _ & Hload & _).
  - intros instanceId renderable Hstored.
    change (renderables st) with (∅ : gmap string GridRenderable) in Hstored.
    rewrite lookup_empty in Hstored. discriminate Hstored.
  - reflexivity.
  - split; [exact Hload|exact (Hmarkers (mkRangeMarkersConfig true))].
Defined.

(** X9, worked on a loaded grid that names no frame: it takes the render
    frame. *)
Lemma startFrame_resolves_witness :
  let st := loadExistingLayers' (freshRenderer {[ "grid-1" := gridEntry 10 ]}) in
  exists resolved : GridRenderable,
    renderables (startFrame "map" st) !! "grid-1" = Some resolved /\
    userData_frameId resolved = "map".
Proof.
  intros st.
  destruct (renderables st !! "grid-1") as [before|] eqn:Hbefore;
    [|vm_compute in Hbefore; discriminate Hbefore].
  destruct (startFrame_resolves "map" st "grid-1" before Hbefore)
    as ((resolved & Hresolved & Hframe & _) & _).
  exists resolved. split; [exact Hresolved|]. rewrite Hframe.
  vm_compute in Hbefore. injection Hbefore as <-. reflexivity.
Defined.


(** X11, worked on the same config. *)
Lemma synced_after_events_witness :
  let st := freshRenderer {[ "grid-1" := gridEntry 10 ]} in
  synced sineOf45 (loadExistingLayers' st) /\
  synced sineOf45 (handleCameraStateChanged' st).
Proof.
  intros st.
  destruct (synced_after_events identityPose translationPose keepColor
              withinEpsilon sineOf45 exponentNotation 3 1 untranslated st
              eq_refl)
    as (Hload & _ & Hcamera & _).
  split; [exact Hload|exact Hcamera].
Defined.

(** X12, worked on an event asking the markers to follow the camera. *)
Lemma rangeMarkersConfigChanged_renderables_witness :
  let st := freshRenderer {[ "grid-1" := gridEntry 2 ]} in
  exists renderable : GridRenderable,
    renderables
      (handleRangeMarkersConfigChanged' (mkRangeMarkersConfig true) st)
      !! "grid-1" = Some renderable /\
    rangeMarkerVisible (userData_settings renderable) = true /\
    rangeMarkerFollowCamera (userData_settings renderable) = true /\
    gridDivisions (userData_settings renderable) = 2%Q.
Proof.
  intros st.
  destruct (rangeMarkersConfigChanged_renderables identityPose translationPose
              keepColor withinEpsilon sineOf45 exponentNotation 3 1
              untranslated (mkRangeMarkersConfig true) st "grid-1"
              (gridEntry 2) eq_refl eq_refl eq_refl)
    as (renderable & Hstored & Hvisible & _ & Hfollow & _ & Hdivisions).
  exists renderable. split; [exact Hstored|]. split; [exact Hvisible|].
  split; [exact Hfollow|]. rewrite Hdivisions. reflexivity.
Defined.

(** X13, worked on a renderer whose one grid layer has been built: a
    second grid is added and the first one's size is edited. *)
Lemma synced_preserved_witness :
  let st :=
    updateGrid' "grid-1" (Some (gridEntry 10))
      (freshRenderer {[ "grid-1" := gridEntry 10 ]}) in
  synced sineOf45 (handleAddGrid' "grid-2" st) /\
  synced sineOf45
    (handleSettingsAction' (Update ["layers"; "grid-1"; "gridSize"] (VNum 20))
       st).
Proof.
  intros st.
  destruct (synced_preserved identityPose translationPose keepColor
              withinEpsilon sineOf45 exponentNotation 3 1 untranslated st)
    as (Haction & Hadd & _).
  - intros instanceId entry Hentry Hgrid.
    change (layers st)
      with ({[ "grid-1" := gridEntry 10 ]} : gmap string LayerEntry) in Hentry.
    apply lookup_singleton_Some in Hentry as [<- <-].
    eexists. split; vm_compute; reflexivity.
  - reflexivity.
  - split; [exact (Hadd "grid-2")|].
    apply (Haction (Update ["layers"; "grid-1"; "gridSize"] (VNum 20))).
    reflexivity.
Defined.

(** X14, worked on an edit of the division count of a stored grid. *)
Lemma handleSettingsAction_update_field_witness :
  let st := freshRenderer {[ "grid-1" := gridEntry 10 ]} in
  let st' :=
    handleSettingsAction'
      (Update ["layers"; "grid-1"; "gridDivisions"] (VNum 4)) st in
  exists renderable : GridRenderable,
    renderables st' !! "grid-1" = Some renderable /\
    gridDivisions (userData_settings renderable) = 4%Q /\
    length (points (lineList_marker (userData_lineList renderable)))
    = 20%nat.
Proof.
  intros st st'.
  destruct (handleSettingsAction_update_field identityPose translationPose
              keepColor withinEpsilon sineOf45 exponentNotation 3 1
              untranslated "grid-1" "gridDivisions" (VNum 4) st
              eq_refl eq_refl)
    as (_ & _ & _ & renderable & Hstored & Hsettings & Hlines & _).
  exists renderable. split; [exact Hstored|].
  rewrite Hlines, Hsettings. split; reflexivity.
Defined.

(** X15, worked on the deletion of a loaded grid. *)
Lemma handleSettingsAction_deletes_witness :
  let st := updateGrid' "grid-1" (Some (gridEntry 10))
              (freshRenderer {[ "grid-1" := gridEntry 10 ]}) in
  let st' :=
    handleSettingsAction' (PerformNodeAction ["layers"; "grid-1"] "delete") st in
  layers st' = delete "grid-1" (layers st) /\
  renderables st' !! "grid-1" = None /\
  disposals "grid-1" LineListPart (trace st') = 1%nat.
Proof.
  intros st st'.
  destruct (handleSettingsAction_deletes identityPose translationPose
              keepColor withinEpsilon sineOf45 exponentNotation 3 1
              untranslated "layers" "grid-1" st)
    as (Hlayers & Hgone & _ & _ & Hlines & _).
  - apply updateGrid_sceneConsistent. split; [constructor|].
    intros instanceId. cbn [children renderables freshRenderer].
    rewrite lookup_empty. split.
    + intros Hin. by apply not_elem_of_nil in Hin.
    + intros [renderable Hsome]. discriminate Hsome.
  - reflexivity.
  - split; [exact Hlayers|]. split; [exact Hgone|].
    fold st' in Hlines. rewrite Hlines. reflexivity.
Defined.


(** X17, worked on a renderer without camera state and an entry that asks
    the markers to follow the camera. *)
Lemma rangeMarkerPosition_kept_witness :
  let entry : LayerEntry :=
    <["rangeMarkerFollowCamera" := VBool true]>
      (<["rangeMarkerPosition" := VVec2 (3, 4)%Q]> (gridEntry 10)) in
  exists renderable : GridRenderable,
    renderables (updateGrid' "grid-1" (Some entry) (freshRenderer ∅))
      !! "grid-1" = Some renderable /\
    rangeMarkerPosition (userData_settings renderable) = (3, 4)%Q.
Proof.
  intros entry.
  destruct (rangeMarkerPosition_kept identityPose translationPose keepColor
              withinEpsilon sineOf45 exponentNotation "grid-1" entry
              (freshRenderer ∅) eq_refl)
    as (renderable & Hstored & Hposition).
  - left. reflexivity.
  - exists renderable. split; [exact Hstored|]. rewrite Hposition.
    reflexivity.
Defined.

(** X18, worked on a stored grid with no field set: camera-follow is off,
    so the nudge field is disabled and the position field is not. *)
Lemma gridFields_policy_witness :
  (gridFields' (gridEntry 10) []).*1
  = [ "frameId"; "gridSize"; "gridDivisions"; "gridLineWidth"; "gridColor";
      "gridPosition"; "gridRotation"; "rangeMarkerVisible";
      "rangeMarkerFollowCamera"; "rangeMarkerFollowCameraNudge";
      "rangeMarkerPosition"; "rangeMarkerFontSize"; "rangeMarkerFontColor" ] /\
  match (gridFields' (gridEntry 10) []) !! 9%nat with
  | Some (key, field) =>
      key = "rangeMarkerFollowCameraNudge" /\ field_disabled field = true
  | None => False
  end.
Proof.
  destruct (gridFields_policy 3 1 untranslated (gridEntry 10) [])
    as [Hkeys Hpolicy].
  split; [exact Hkeys|].
  destruct (gridFields' (gridEntry 10) [] !! 9%nat) as [[key field]|] eqn:Hat;
    [|vm_compute in Hat; discriminate Hat].
  destruct (Hpolicy key field) as [_ Hdisabled].
  - by apply list_elem_of_lookup_2 in Hat.
  - rewrite Hdisabled. vm_compute in Hat. injection Hat as <- _.
    split; reflexivity.
Defined.


(** X20, worked on a point cloud topic and an image topic. *)
Lemma buildSettingsTree_options_witness :
  let topics :=
    [ MessageFiltersPanel.mkTopic "/points" "sensor_msgs/msg/PointCloud2";
      MessageFiltersPanel.mkTopic "/camera" "sensor_msgs/msg/Image" ] in
  let tree :=
    MessageFiltersPanel.buildSettingsTree MessageFiltersPanel.DEFAULT_CONFIG
      topics in
  MessageFiltersPanel.option_value
    <$> MessageFiltersPanel.optionsOf
          (MessageFiltersPanel.fieldAt tree "general" "topic")
  = ["/points"] /\
  MessageFiltersPanel.option_value
    <$> MessageFiltersPanel.optionsOf
          (MessageFiltersPanel.fieldAt tree "filter" "field")
  = ["sensor_msgs/msg/PointCloud2"; "sensor_msgs/msg/Image"].
Proof.
  intros topics tree.
  destruct (buildSettingsTree_options MessageFiltersPanel.DEFAULT_CONFIG topics)
    as (_ & Htopic & _ & _ & Hfield).
  split; [exact Htopic|exact Hfield].
Defined.

(** X21, worked on a config whose topic is /points. *)
Lemma buildSettingsTree_placeholder_witness :
  MessageFiltersPanel.placeholderOf
    (MessageFiltersPanel.fieldAt
       (MessageFiltersPanel.buildSettingsTree
          (MessageFiltersPanel.mkConfig (Some "/points") None (Some [])) [])
       "general" "publish")
  = Some "/points/filtered".
Proof.
  destruct (buildSettingsTree_placeholder
              (MessageFiltersPanel.mkConfig (Some "/points") None (Some [])) [])
    as (Hchosen & _).
  exact (Hchosen "/points" eq_refl).
Defined.
